(** * Users / Tasks REST API: a shallow embedding of the route handlers

    The development follows [routes/users.js] and [routes/tasks.js].
    The JavaScript built-ins the handlers rely on ([Number], [isNaN],
    [parseInt], [new Date], truthiness) are modelled in [Module Js]; the
    Mongoose models [User] and [Task] are modelled as finite maps keyed by
    [_id]; every handler is a computation in a small monad that threads the
    document store and may respond early or throw (the [try]/[catch] of
    each handler turns a throw into a 500 response). *)

From Stdlib Require Import ZArith String Ascii List Lia.
From stdpp Require Import base gmap strings list fin_maps.

Open Scope string_scope.
Open Scope Z_scope.

(* ===================================================================== *)
(** ** JavaScript values and built-ins                                     *)
(* ===================================================================== *)

Module Js.

(** A JavaScript number.  A finite number [Fin m e] denotes [m * 10^e];
    the binary rounding of IEEE doubles is not modelled, the value of a
    decimal literal is kept exactly. *)
Inductive num : Type :=
| NaN
| Infinity (negative : bool)
| Fin (m e : Z).

(** The scalar values a request body field can carry. *)
Inductive val : Type :=
| Undefined
| Null
| Bool (b : bool)
| Num (n : num)
| Str (s : string).

Definition isNaN (n : num) : bool :=
  match n with NaN => true | _ => false end.

Definition str_truthy (s : string) : bool :=
  match s with EmptyString => false | _ => true end.

(** [!!v] *)
Definition truthy (v : val) : bool :=
  match v with
  | Undefined | Null => false
  | Bool b => b
  | Num NaN => false
  | Num (Infinity _) => true
  | Num (Fin m _) => negb (m =? 0)
  | Str s => str_truthy s
  end.

(** [o || d] on an optional string field ([None] is [undefined]). *)
Definition or_str (o : option string) (d : string) : string :=
  match o with
  | Some s => if str_truthy s then s else d
  | None => d
  end.

Definition opt_truthy (o : option string) : bool :=
  match o with Some s => str_truthy s | None => false end.

(** *** Characters *)

Definition is_ws (c : ascii) : bool :=
  let n := Z.of_nat (nat_of_ascii c) in
  ((9 <=? n) && (n <=? 13)) || (n =? 32).

Definition digit_in (radix : Z) (c : ascii) : option Z :=
  let n := Z.of_nat (nat_of_ascii c) in
  let d :=
    if (48 <=? n) && (n <=? 57) then Some (n - 48)
    else if (97 <=? n) && (n <=? 122) then Some (n - 87)
    else if (65 <=? n) && (n <=? 90) then Some (n - 55)
    else None in
  match d with
  | Some k => if k <? radix then Some k else None
  | None => None
  end.

Definition to_lower_ascii (c : ascii) : ascii :=
  let n := nat_of_ascii c in
  if ((65 <=? Z.of_nat n) && (Z.of_nat n <=? 90))%Z
  then ascii_of_nat (n + 32) else c.

(** [s.toLowerCase()] on the ASCII range. *)
Fixpoint toLowerCase (s : string) : string :=
  match s with
  | EmptyString => EmptyString
  | String c r => String (to_lower_ascii c) (toLowerCase r)
  end.

Fixpoint drop_ws (l : list ascii) : list ascii :=
  match l with
  | c :: r => if is_ws c then drop_ws r else l
  | [] => []
  end.

Definition trim (l : list ascii) : list ascii :=
  rev (drop_ws (rev (drop_ws l))).

(** Longest prefix of digits in [radix]: its value (continuing from
    [acc]), how many digits were read, and the rest of the input. *)
Fixpoint take_digits (radix : Z) (acc : Z) (cnt : Z) (l : list ascii)
  : Z * Z * list ascii :=
  match l with
  | c :: r =>
      match digit_in radix c with
      | Some d => take_digits radix (acc * radix + d) (cnt + 1) r
      | None => (acc, cnt, l)
      end
  | [] => (acc, cnt, [])
  end.

Definition is_char (c : ascii) (a b : string) : bool :=
  bool_decide (String c EmptyString = a) || bool_decide (String c EmptyString = b).

(** *** [Number(string)]: the StringNumericLiteral grammar *)

Definition exponent_part (l : list ascii) : option Z :=
  match l with
  | [] => Some 0
  | c :: r =>
      if is_char c "e" "E" then
        let '(neg, r') :=
          match r with
          | s :: r' =>
              if is_char s "-" "-" then (true, r')
              else if is_char s "+" "+" then (false, r')
              else (false, r)
          | [] => (false, r)
          end in
        match take_digits 10 0 0 r' with
        | (v, cnt, []) => if 0 <? cnt then Some (if neg then - v else v) else None
        | _ => None
        end
      else None
  end.

Definition unsigned_decimal (l : list ascii) : num :=
  if bool_decide (l = list_ascii_of_string "Infinity") then Infinity false
  else
    let '(iv, icnt, r1) := take_digits 10 0 0 l in
    let '(mv, fcnt, r2) :=
      match r1 with
      | c :: r =>
          if is_char c "." "." then
            let '(fv, fcnt, r2) := take_digits 10 iv 0 r in (fv, fcnt, r2)
          else (iv, 0, r1)
      | [] => (iv, 0, r1)
      end in
    if 0 <? icnt + fcnt then
      match exponent_part r2 with
      | Some ex => Fin mv (ex - fcnt)
      | None => NaN
      end
    else NaN.

Definition negate (n : num) : num :=
  match n with
  | NaN => NaN
  | Infinity b => Infinity (negb b)
  | Fin m e => Fin (- m) e
  end.

Definition radix_literal (radix : Z) (l : list ascii) : num :=
  match take_digits radix 0 0 l with
  | (v, cnt, []) => if 0 <? cnt then Fin v 0 else NaN
  | _ => NaN
  end.

Definition StringToNumber (s : string) : num :=
  match trim (list_ascii_of_string s) with
  | [] => Fin 0 0
  | c :: r =>
      if is_char c "-" "-" then negate (unsigned_decimal r)
      else if is_char c "+" "+" then unsigned_decimal r
      else
        match r with
        | p :: r' =>
            if is_char c "0" "0" && is_char p "x" "X" then radix_literal 16 r'
            else if is_char c "0" "0" && is_char p "o" "O" then radix_literal 8 r'
            else if is_char c "0" "0" && is_char p "b" "B" then radix_literal 2 r'
            else unsigned_decimal (c :: r)
        | [] => unsigned_decimal (c :: r)
        end
  end.

(** [Number(v)] *)
Definition Number (v : val) : num :=
  match v with
  | Undefined => NaN
  | Null => Fin 0 0
  | Bool b => if b then Fin 1 0 else Fin 0 0
  | Num n => n
  | Str s => StringToNumber s
  end.

(** *** [parseInt(string)] with no radix argument; [None] is [NaN]. *)
Definition parseInt (s : string) : option Z :=
  let l := drop_ws (list_ascii_of_string s) in
  let '(neg, l1) :=
    match l with
    | c :: r =>
        if is_char c "-" "-" then (true, r)
        else if is_char c "+" "+" then (false, r)
        else (false, l)
    | [] => (false, l)
    end in
  let '(radix, l2) :=
    match l1 with
    | c :: p :: r =>
        if is_char c "0" "0" && is_char p "x" "X" then (16, r) else (10, l1)
    | _ => (10, l1)
    end in
  match take_digits radix 0 0 l2 with
  | (v, cnt, _) => if 0 <? cnt then Some (if neg then - v else v) else None
  end.

(** *** Dates.  A [Date] object is its time value in epoch milliseconds,
    [None] being the Invalid Date (whose [getTime()] is [NaN]). *)

Definition max_time : Z := 8640000000000000.

(** [new Date(n)] for a number: TimeClip. *)
Definition Date_of_number (n : num) : option Z :=
  match n with
  | NaN | Infinity _ => None
  | Fin m e =>
      if 0 <=? e then
        let v := m * 10 ^ e in
        if max_time <? Z.abs v then None else Some v
      else
        let d := 10 ^ (- e) in
        if max_time * d <? Z.abs m then None else Some (Z.quot m d)
  end.

Section Engine.
(** [Date.parse] on strings is left to the engine. *)
Variable Date_parse : string -> option Z.

(** [new Date(v)] *)
Definition Date_of_value (v : val) : option Z :=
  match v with
  | Str s => Date_parse s
  | _ => Date_of_number (Number v)
  end.
End Engine.

End Js.

Example Number_digits : Js.Number (Js.Str "1700000000000") = Js.Fin 1700000000000 0.
Proof. reflexivity. Qed.
Example Number_word : Js.Number (Js.Str "not-a-date") = Js.NaN.
Proof. reflexivity. Qed.
Example Number_decimal : Js.Number (Js.Str " -12.5e1 ") = Js.Fin (-125) 0.
Proof. reflexivity. Qed.
Example Number_hex : Js.Number (Js.Str "0x1F") = Js.Fin 31 0.
Proof. reflexivity. Qed.
Example Number_blank : Js.Number (Js.Str "  ") = Js.Fin 0 0.
Proof. reflexivity. Qed.
Example Number_dot : Js.Number (Js.Str ".") = Js.NaN.
Proof. reflexivity. Qed.
Example Number_iso : Js.Number (Js.Str "2024-01-01") = Js.NaN.
Proof. reflexivity. Qed.
Example parseInt_px : Js.parseInt "42px" = Some 42.
Proof. reflexivity. Qed.
Example parseInt_word : Js.parseInt "abc" = None.
Proof. reflexivity. Qed.
Example Date_clip : Js.Date_of_number (Js.Fin (-15) (-1)) = Some (-1).
Proof. reflexivity. Qed.

(* ===================================================================== *)
(** ** Data model                                                          *)
(* ===================================================================== *)

(** The schemas of [models/user.js] and [models/task.js].  A document is
    stored under its [_id]; the record holds the other fields.  A
    timestamp is its epoch-millisecond value. *)

Module User.
Record doc : Type := mk {
  name : string;
  email : string;
  pendingTasks : list string;
  dateCreated : Z
}.
End User.

Module Task.
Record doc : Type := mk {
  name : string;
  description : string;
  deadline : Z;
  completed : bool;
  assignedUser : string;
  assignedUserName : string
}.
End Task.

(** The document store: one collection per model. *)
Record Store : Type := mkStore {
  users : gmap string User.doc;
  tasks : gmap string Task.doc
}.

Definition empty_store : Store := mkStore ∅ ∅.

(** A parsed JSON query parameter. *)
#[local] Unset Elimination Schemes.
Inductive Json : Type :=
| JsonNull
| JsonBool (b : bool)
| JsonNum (n : Js.num)
| JsonStr (s : string)
| JsonArr (l : list Json)
| JsonObj (l : list (string * Json)).
#[local] Set Elimination Schemes.

Definition json_truthy (j : Json) : bool :=
  match j with
  | JsonNull => false
  | JsonBool b => b
  | JsonNum n => Js.truthy (Js.Num n)
  | JsonStr s => Js.str_truthy s
  | JsonArr _ | JsonObj _ => true
  end.

(** [a || b] *)
Definition json_or (a b : Json) : Json := if json_truthy a then a else b.

(** What a response carries in its [data] field. *)
Inductive Data : Type :=
| DObject                                   (* {} *)
| DList                                     (* [] *)
| DCount (n : nat)
| DUser (id : string) (u : User.doc)
| DTask (id : string) (t : Task.doc)
| DUsers (l : list (string * User.doc))
| DTasks (l : list (string * Task.doc))
| DError.                                   (* the caught error *)

Record Response : Type := mkResponse {
  status : Z;
  message : string;
  data : Data
}.

(** *** Request payloads *)

(** [req.body.pendingTasks]: absent, one value, or an array. *)
Inductive Pending : Type :=
| PAbsent
| PScalar (s : string)
| PArray (l : list string).

Module UserBody.
Record t : Type := mk {
  name : option string;
  email : option string;
  pendingTasks : Pending;
  dateCreated : Js.val
}.
End UserBody.

Module TaskBody.
Record t : Type := mk {
  name : option string;
  deadline : Js.val;
  description : option string;
  completed : Js.val;
  assignedUser : option string;
  assignedUserName : option string
}.
End TaskBody.

(** [req.query] of the collection endpoints. *)
Record Query : Type := mkQuery {
  q_where : option string;
  q_sort : option string;
  q_select : option string;
  q_filter : option string;
  q_skip : option string;
  q_limit : option string;
  q_count : option string
}.

(* ===================================================================== *)
(** ** The handler monad                                                   *)
(* ===================================================================== *)

(** A step of a handler either goes on with a value, has already sent
    its response ([return res.status(..).json(..)]), or has thrown.  The
    store is threaded through: writes made before a throw stay. *)
Inductive Outcome (A : Type) : Type :=
| Ret (a : A)
| Respond (r : Response)
| Throw.
Arguments Ret {A} a.
Arguments Respond {A} r.
Arguments Throw {A}.

Definition Handler (A : Type) : Type := Store -> Store * Outcome A.

Definition hret {A} (a : A) : Handler A := fun s => (s, Ret a).

Definition hbind {A B} (m : Handler A) (k : A -> Handler B) : Handler B :=
  fun s =>
    match m s with
    | (s', Ret a) => k a s'
    | (s', Respond r) => (s', Respond r)
    | (s', Throw) => (s', Throw)
    end.

Definition respond {A} (code : Z) (msg : string) (d : Data) : Handler A :=
  fun s => (s, Respond (mkResponse code msg d)).

Definition throw {A} : Handler A := fun s => (s, Throw).

Definition read {A} (f : Store -> A) : Handler A := fun s => (s, Ret (f s)).

Definition write_users (f : gmap string User.doc -> gmap string User.doc)
  : Handler unit :=
  fun s => (mkStore (f (users s)) (tasks s), Ret tt).

Definition write_tasks (f : gmap string Task.doc -> gmap string Task.doc)
  : Handler unit :=
  fun s => (mkStore (users s) (f (tasks s)), Ret tt).

Notation "'let*' x := m 'in' k" := (hbind m (fun x => k))
  (at level 10, x name, m at level 100, k at level 200).
Notation "m ;; k" := (hbind m (fun _ => k))
  (at level 100, k at level 200, right associativity).

(** When [c] holds, run the early [return]. *)
Definition guard (c : bool) (r : Handler unit) : Handler unit :=
  if c then r else hret tt.

(** The [try { ... } catch (err) { 500 }] around every handler body. *)
Definition handle (m : Handler Response) (s : Store) : Response * Store :=
  match m s with
  | (s', Ret r) => (r, s')
  | (s', Respond r) => (r, s')
  | (s', Throw) => (mkResponse 500 "Server Error" DError, s')
  end.

(* ===================================================================== *)
(** ** The store operations the handlers call                              *)
(* ===================================================================== *)

(** How the store evaluates a filter, a sort specification and a
    projection is the store's business; the handlers only pass the parsed
    parameters through. *)
Record QueryEngine (D : Type) : Type := mkEngine {
  qe_matches : Json -> string * D -> bool;
  qe_sort : Json -> list (string * D) -> list (string * D);
  qe_select : Json -> string * D -> string * D
}.
Arguments qe_matches {D} _ _ _.
Arguments qe_sort {D} _ _ _.
Arguments qe_select {D} _ _ _.

(** A query under construction: [Model.find(where)] followed by the
    optional [.sort], [.select], [.skip] and [.limit] calls. *)
Record MQuery : Type := mkMQuery {
  mq_where : Json;
  mq_sort : option Json;
  mq_select : option Json;
  mq_skip : option Z;
  mq_limit : option Z
}.

Definition find (where_ : Json) : MQuery := mkMQuery where_ None None None None.
Definition sort_ (j : Json) (q : MQuery) : MQuery :=
  mkMQuery (mq_where q) (Some j) (mq_select q) (mq_skip q) (mq_limit q).
Definition select_ (j : Json) (q : MQuery) : MQuery :=
  mkMQuery (mq_where q) (mq_sort q) (Some j) (mq_skip q) (mq_limit q).
Definition skip_ (n : Z) (q : MQuery) : MQuery :=
  mkMQuery (mq_where q) (mq_sort q) (mq_select q) (Some n) (mq_limit q).
Definition limit_ (n : Z) (q : MQuery) : MQuery :=
  mkMQuery (mq_where q) (mq_sort q) (mq_select q) (mq_skip q) (Some n).

(** The documents a filter matches, before sorting and paging. *)
Definition matching {D} (E : QueryEngine D) (where_ : Json) (c : gmap string D)
  : list (string * D) :=
  List.filter (qe_matches E where_) (map_to_list c).

(** [query.exec()]: filter, sort, skip, limit, project.  A negative skip
    is refused by the store ([None]); a negative limit counts as its
    absolute value. *)
Definition exec {D} (E : QueryEngine D) (q : MQuery) (c : gmap string D)
  : option (list (string * D)) :=
  let docs := matching E (mq_where q) c in
  let sorted := match mq_sort q with Some j => qe_sort E j docs | None => docs end in
  match
    match mq_skip q with
    | Some n => if n <? 0 then None else Some (drop (Z.to_nat n) sorted)
    | None => Some sorted
    end
  with
  | None => None
  | Some skipped =>
      let limited :=
        match mq_limit q with
        | Some n => take (Z.to_nat (Z.abs n)) skipped
        | None => skipped
        end in
      Some (match mq_select q with
            | Some j => List.map (qe_select E j) limited
            | None => limited
            end)
  end.

(** [$addToSet] and [$pull] on an array of strings. *)
Definition addToSet (x : string) (l : list string) : list string :=
  if bool_decide (x ∈ l) then l else l ++ [x].

Definition pull (x : string) (l : list string) : list string :=
  List.filter (fun y => negb (bool_decide (y = x))) l.

Module Users.

Definition findById (id : string) : Handler (option User.doc) :=
  read (fun s => users s !! id).

(** [User.findOne(filter)]: the first document the filter accepts. *)
Definition findOne (p : string -> User.doc -> bool)
  : Handler (option (string * User.doc)) :=
  read (fun s => head (List.filter (fun kv => p kv.1 kv.2) (map_to_list (users s)))).

(** [new User({...}).save()]: an insert; the store refuses a second
    document under the same [_id]. *)
Definition create (id : string) (u : User.doc) : Handler unit :=
  let* old := findById id in
  match old with
  | Some _ => throw
  | None => write_users (fun c => <[id := u]> c)
  end.

(** [user.save()] on a document that was read from the store. *)
Definition save (id : string) (u : User.doc) : Handler unit :=
  write_users (fun c => <[id := u]> c).

Definition set_pendingTasks (f : list string -> list string) (u : User.doc)
  : User.doc :=
  User.mk (User.name u) (User.email u) (f (User.pendingTasks u)) (User.dateCreated u).

(** [User.findByIdAndUpdate(id, { $addToSet: { pendingTasks: x } })] *)
Definition findByIdAndUpdate_addToSet (id x : string) : Handler unit :=
  write_users (fun c => alter (set_pendingTasks (addToSet x)) id c).

(** [User.findByIdAndUpdate(id, { $pull: { pendingTasks: x } })] *)
Definition findByIdAndUpdate_pull (id x : string) : Handler unit :=
  write_users (fun c => alter (set_pendingTasks (pull x)) id c).

Definition deleteOne (id : string) : Handler unit :=
  write_users (fun c => delete id c).

End Users.

Module Tasks.

Definition findById (id : string) : Handler (option Task.doc) :=
  read (fun s => tasks s !! id).

Definition create (id : string) (t : Task.doc) : Handler unit :=
  let* old := findById id in
  match old with
  | Some _ => throw
  | None => write_tasks (fun c => <[id := t]> c)
  end.

Definition save (id : string) (t : Task.doc) : Handler unit :=
  write_tasks (fun c => <[id := t]> c).

(** [{ $set: { assignedUser: a, assignedUserName: n } }] and, with
    [Some c], [completed: c] as well. *)
Definition set_assignment (a n : string) (c : option bool) (t : Task.doc)
  : Task.doc :=
  Task.mk (Task.name t) (Task.description t) (Task.deadline t)
          (match c with Some b => b | None => Task.completed t end) a n.

(** [Task.updateMany(filter, update)] *)
Definition updateMany (p : string -> Task.doc -> bool) (f : Task.doc -> Task.doc)
  : Handler unit :=
  write_tasks (fun c => map_imap (fun id t => Some (if p id t then f t else t)) c).

Definition deleteOne (id : string) : Handler unit :=
  write_tasks (fun c => delete id c).

End Tasks.

Definition in_ids (ids : list string) (id : string) : bool := bool_decide (id ∈ ids).

(* ===================================================================== *)
(** ** The route handlers                                                  *)
(* ===================================================================== *)

(** [parseBoolean(val, defaultVal)] of routes/tasks.js *)
Definition parseBoolean (v : Js.val) (defaultVal : bool) : bool :=
  match v with
  | Js.Undefined | Js.Null => defaultVal
  | Js.Bool b => b
  | Js.Str s => bool_decide (Js.toLowerCase s = "true")
  | Js.Num _ => defaultVal
  end.

(** [req.body.pendingTasks || []], wrapped into an array when it is not
    one, its elements stringified. *)
Definition normalize_pending (p : Pending) : list string :=
  match p with
  | PAbsent => []
  | PScalar s => if Js.str_truthy s then [s] else []
  | PArray l => l
  end.

Definition nonempty {A} (l : list A) : bool :=
  match l with [] => false | _ => true end.

Definition when (c : bool) (m : Handler unit) : Handler unit :=
  if c then m else hret tt.

Section Routes.

(** The engine's [Date.parse] and [JSON.parse] ([None]: it throws), and
    the store's query evaluation for both collections. *)
Variable Date_parse : string -> option Z.
Variable JSON_parse : string -> option Json.
Variable UserQ : QueryEngine User.doc.
Variable TaskQ : QueryEngine Task.doc.

(** [parseJSONParam(param)]: [JsonNull] is the [null] it returns for a
    missing or malformed parameter. *)
Definition parseJSONParam (param : option string) : Json :=
  if negb (Js.opt_truthy param) then JsonNull
  else match param with
       | Some p => match JSON_parse p with Some j => j | None => JsonNull end
       | None => JsonNull
       end.

(** [req.query.x ? parseInt(req.query.x) : dflt]; [None] stands for a
    falsy result that is not a number to apply ([null] or [NaN]). *)
Definition int_param (param : option string) (dflt : option Z) : option Z :=
  if Js.opt_truthy param
  then match param with Some p => Js.parseInt p | None => None end
  else dflt.

(** [if (n) ...] on such a parameter. *)
Definition int_truthy (n : option Z) : option Z :=
  match n with
  | Some k => if k =? 0 then None else Some k
  | None => None
  end.

(** The lines both list handlers share, from reading the parameters to
    building the query; [default_limit] is what [limit] is when the
    caller gives none. *)
Definition list_query (q : Query) (default_limit : option Z)
  : Handler (Json * bool * MQuery) :=
  let where_ := json_or (parseJSONParam (q_where q)) (JsonObj []) in
  let sort := parseJSONParam (q_sort q) in
  let select := json_or (parseJSONParam (q_select q)) (parseJSONParam (q_filter q)) in
  let skip := int_param (q_skip q) None in
  let limit := int_param (q_limit q) default_limit in
  let count := bool_decide (q_count q = Some "true") in
  guard (Js.opt_truthy (q_where q) && negb (json_truthy where_))
    (respond 400 "Bad Request: invalid JSON in 'where'" DList) ;;
  guard (Js.opt_truthy (q_sort q) && negb (json_truthy sort))
    (respond 400 "Bad Request: invalid JSON in 'sort'" DList) ;;
  guard ((Js.opt_truthy (q_select q) || Js.opt_truthy (q_filter q))
         && negb (json_truthy select))
    (respond 400 "Bad Request: invalid JSON in 'select/filter'" DList) ;;
  let query := find where_ in
  let query := if json_truthy sort then sort_ sort query else query in
  let query := if json_truthy select then select_ select query else query in
  let query := match int_truthy skip with Some n => skip_ n query | None => query end in
  let query := match int_truthy limit with Some n => limit_ n query | None => query end in
  hret (where_, count, query).

(** *** routes/users.js *)

(** [GET /api/users] *)
Definition get_users (q : Query) : Handler Response :=
  let* wcq := list_query q None in   (* no default limit for users *)
  let '(where_, count, query) := wcq in
  if count then
    let* c := read (fun s => length (matching UserQ where_ (users s))) in
    respond 200 "OK" (DCount c)
  else
    let* r := read (fun s => exec UserQ query (users s)) in
    match r with
    | Some l => respond 200 "OK" (DUsers l)
    | None => throw
    end.

(** [POST /api/users]; [newId] is the [_id] the new document gets and
    [now] the clock reading its [dateCreated] defaults to. *)
Definition post_user (newId : string) (now : Z) (body : UserBody.t)
  : Handler Response :=
  let name := UserBody.name body in
  let email := UserBody.email body in
  guard (negb (Js.opt_truthy name) || negb (Js.opt_truthy email))
    (respond 400 "Name and email are required" DObject) ;;
  let* existing := Users.findOne (fun _ u => bool_decide (Some (User.email u) = email)) in
  guard (bool_decide (is_Some existing))
    (respond 400 "A user with that email already exists" DObject) ;;
  let pendingTasks := normalize_pending (UserBody.pendingTasks body) in
  let user := User.mk (Js.or_str name "") (Js.or_str email "") pendingTasks
                      now (* dateCreated defaults automatically *) in
  Users.create newId user ;;
  respond 201 "User created" (DUser newId user).

(** [PUT /api/users/:id] *)
Definition put_user (id : string) (body : UserBody.t) : Handler Response :=
  let name := UserBody.name body in
  let email := UserBody.email body in
  guard (negb (Js.opt_truthy name) || negb (Js.opt_truthy email))
    (respond 400 "Name and email are required" DObject) ;;
  let* found := Users.findById id in
  match found with
  | None => respond 404 "User not found" DObject
  | Some user =>
      let* existing :=
        Users.findOne (fun k u => bool_decide (Some (User.email u) = email)
                                  && negb (bool_decide (k = id))) in
      guard (bool_decide (is_Some existing))
        (respond 400 "A user with that email already exists" DObject) ;;
      let newPendingTasks := normalize_pending (UserBody.pendingTasks body) in
      let oldPendingTasks := User.pendingTasks user in
      (* an Invalid Date makes [user.save()] reject *)
      let* dateCreated :=
        if Js.truthy (UserBody.dateCreated body) then
          match Js.Date_of_value Date_parse (UserBody.dateCreated body) with
          | Some d => hret d
          | None => throw
          end
        else hret (User.dateCreated user) in
      let user := User.mk (Js.or_str name "") (Js.or_str email "")
                          newPendingTasks dateCreated in
      Users.save id user ;;
      let userId := id in
      let tasksToAdd :=
        List.filter (fun t => negb (in_ids oldPendingTasks t)) newPendingTasks in
      let tasksToRemove :=
        List.filter (fun t => negb (in_ids newPendingTasks t)) oldPendingTasks in
      when (nonempty tasksToAdd)
        (Tasks.updateMany (fun k _ => in_ids tasksToAdd k)
           (Tasks.set_assignment userId (User.name user) (Some false))) ;;
      when (nonempty tasksToRemove)
        (Tasks.updateMany
           (fun k t => in_ids tasksToRemove k
                       && bool_decide (Task.assignedUser t = userId))
           (Tasks.set_assignment "" "unassigned" None)) ;;
      respond 200 "User updated" (DUser id user)
  end.

(** [GET /api/users/:id] *)
Definition get_user (id : string) (q : Query) : Handler Response :=
  let select := json_or (parseJSONParam (q_select q)) (parseJSONParam (q_filter q)) in
  guard ((Js.opt_truthy (q_select q) || Js.opt_truthy (q_filter q))
         && negb (json_truthy select))
    (respond 400 "Bad Request: invalid JSON in 'select/filter'" DObject) ;;
  let* found := Users.findById id in
  match found with
  | None => respond 404 "User not found" DObject
  | Some user =>
      let '(k, u) := if json_truthy select
                     then qe_select UserQ select (id, user) else (id, user) in
      respond 200 "OK" (DUser k u)
  end.

(** [DELETE /api/users/:id] *)
Definition delete_user (id : string) : Handler Response :=
  let* found := Users.findById id in
  match found with
  | None => respond 404 "User not found" DObject
  | Some user =>
      (* Unassign all tasks belonging to this user *)
      Tasks.updateMany (fun _ t => bool_decide (Task.assignedUser t = id))
        (Tasks.set_assignment "" "unassigned" None) ;;
      Users.deleteOne id ;;
      respond 200 "User deleted" DObject
  end.

(** *** routes/tasks.js *)

(** [GET /api/tasks] *)
Definition get_tasks (q : Query) : Handler Response :=
  let* wcq := list_query q (Some 100) in   (* default 100 for tasks *)
  let '(where_, count, query) := wcq in
  if count then
    let* c := read (fun s => length (matching TaskQ where_ (tasks s))) in
    respond 200 "OK" (DCount c)
  else
    let* r := read (fun s => exec TaskQ query (tasks s)) in
    match r with
    | Some l => respond 200 "OK" (DTasks l)
    | None => throw
    end.

(** The deadline conversion of POST (lines 73-78) and PUT (lines
    167-171): a value that coerces to a number is a millisecond
    timestamp, any other is handed to the date parser. *)
Definition deadline_date (deadline : Js.val) : option Z :=
  if negb (Js.isNaN (Js.Number deadline))
  then Js.Date_of_number (Js.Number deadline)
  else Js.Date_of_value Date_parse deadline.

(** [POST /api/tasks]; [newId] is the [_id] of the new document. *)
Definition post_task (newId : string) (body : TaskBody.t) : Handler Response :=
  let name := TaskBody.name body in
  let deadline := TaskBody.deadline body in
  guard (negb (Js.opt_truthy name) || negb (Js.truthy deadline))
    (respond 400 "Task name and deadline are required" DObject) ;;
  match deadline_date deadline with
  | None => respond 400 "Invalid deadline date" DObject
  | Some deadline =>
      let completed := parseBoolean (TaskBody.completed body) false in
      let assignedUser := Js.or_str (TaskBody.assignedUser body) "" in
      let assignedUserName := Js.or_str (TaskBody.assignedUserName body) "unassigned" in
      (* If assignedUser is non-empty, verify user exists and sync name *)
      let* assignedUserName :=
        if Js.str_truthy assignedUser then
          let* user := Users.findById assignedUser in
          match user with
          | None => respond 400 "Assigned user not found" DObject
          | Some user => hret (User.name user)
          end
        else hret "unassigned" in
      let task := Task.mk (Js.or_str name "")
                          (Js.or_str (TaskBody.description body) "")
                          deadline completed assignedUser assignedUserName in
      Tasks.create newId task ;;
      (* if assigned and not completed, add to user's pendingTasks *)
      when (Js.str_truthy assignedUser && negb completed)
        (Users.findByIdAndUpdate_addToSet assignedUser newId) ;;
      respond 201 "Task created" (DTask newId task)
  end.

(** [GET /api/tasks/:id] *)
Definition get_task (id : string) (q : Query) : Handler Response :=
  let select := json_or (parseJSONParam (q_select q)) (parseJSONParam (q_filter q)) in
  guard ((Js.opt_truthy (q_select q) || Js.opt_truthy (q_filter q))
         && negb (json_truthy select))
    (respond 400 "Bad Request: invalid JSON in 'select/filter'" DObject) ;;
  let* found := Tasks.findById id in
  match found with
  | None => respond 404 "Task not found" DObject
  | Some task =>
      let '(k, t) := if json_truthy select
                     then qe_select TaskQ select (id, task) else (id, task) in
      respond 200 "OK" (DTask k t)
  end.

(** The condition under which PUT takes the task out of the old
    assignee's [pendingTasks]. *)
Definition shouldRemove (oldAssignedUser assignedUser : string)
           (oldCompleted completed : bool) : bool :=
  negb (bool_decide (oldAssignedUser = assignedUser))
  || oldCompleted || completed || negb (Js.str_truthy assignedUser).

(** Step 1 of the two-way reference update of PUT. *)
Definition put_task_remove (oldAssignedUser assignedUser : string)
           (oldCompleted completed : bool) (taskId : string) : Handler unit :=
  when (Js.str_truthy oldAssignedUser)
    (when (shouldRemove oldAssignedUser assignedUser oldCompleted completed)
       (Users.findByIdAndUpdate_pull oldAssignedUser taskId)).

(** Step 2. *)
Definition put_task_add (assignedUser : string) (completed : bool)
           (taskId : string) : Handler unit :=
  when (Js.str_truthy assignedUser && negb completed)
    (Users.findByIdAndUpdate_addToSet assignedUser taskId).

(** [PUT /api/tasks/:id] *)
Definition put_task (id : string) (body : TaskBody.t) : Handler Response :=
  let* found := Tasks.findById id in
  match found with
  | None => respond 404 "Task not found" DObject
  | Some existingTask =>
      let name := TaskBody.name body in
      let deadline := TaskBody.deadline body in
      guard (negb (Js.opt_truthy name) || negb (Js.truthy deadline))
        (respond 400 "Task name and deadline are required" DObject) ;;
      match deadline_date deadline with
      | None => respond 400 "Invalid deadline date" DObject
      | Some deadline =>
          let oldAssignedUser := Task.assignedUser existingTask in
          let oldCompleted := Task.completed existingTask in
          let completed := parseBoolean (TaskBody.completed body) oldCompleted in
          let assignedUser :=
            match TaskBody.assignedUser body with
            | Some a => a
            | None => oldAssignedUser
            end in
          let assignedUserName :=
            Js.or_str (TaskBody.assignedUserName body)
                      (Task.assignedUserName existingTask) in
          let* assigned :=
            if negb (Js.str_truthy assignedUser) then hret ("", "unassigned")
            else
              let* user := Users.findById assignedUser in
              match user with
              | None => respond 400 "Assigned user not found" DObject
              | Some user => hret (assignedUser, User.name user)
              end in
          let '(assignedUser, assignedUserName) := assigned in
          let task := Task.mk (Js.or_str name "")
                        (Js.or_str (TaskBody.description body)
                                   (Task.description existingTask))
                        deadline completed assignedUser assignedUserName in
          Tasks.save id task ;;
          let taskId := id in
          put_task_remove oldAssignedUser assignedUser oldCompleted completed taskId ;;
          put_task_add assignedUser completed taskId ;;
          respond 200 "Task updated" (DTask id task)
      end
  end.

(** [DELETE /api/tasks/:id] *)
Definition delete_task (id : string) : Handler Response :=
  let* found := Tasks.findById id in
  match found with
  | None => respond 404 "Task not found" DObject
  | Some task =>
      let assignedUser := Task.assignedUser task in
      (* Remove from user's pendingTasks if present *)
      when (Js.str_truthy assignedUser)
        (Users.findByIdAndUpdate_pull assignedUser id) ;;
      Tasks.deleteOne id ;;
      respond 200 "Task deleted" DObject
  end.

End Routes.

(* ===================================================================== *)
(** ** A concrete engine and store, for running the handlers               *)
(* ===================================================================== *)

Module Sample.

(** Days from 1970-01-01 to a date of the proleptic Gregorian calendar. *)
Definition days_from_civil (y m d : Z) : Z :=
  let y := if m <=? 2 then y - 1 else y in
  let era := y / 400 in
  let yoe := y - era * 400 in
  let mp := (m + 9) mod 12 in
  let doy := (153 * mp + 2) / 5 + d - 1 in
  let doe := yoe * 365 + yoe / 4 - yoe / 100 + doy in
  era * 146097 + doe - 719468.

(** A date parser that reads the date-only form [YYYY-MM-DD] (UTC
    midnight) and rejects every other string. *)
Definition Date_parse (s : string) : option Z :=
  match list_ascii_of_string s with
  | [y1; y2; y3; y4; h1; m1; m2; h2; d1; d2] =>
      match Js.take_digits 10 0 0 [y1; y2; y3; y4],
            Js.take_digits 10 0 0 [m1; m2],
            Js.take_digits 10 0 0 [d1; d2] with
      | (y, 4, _), (m, 2, _), (d, 2, _) =>
          if Js.is_char h1 "-" "-" && Js.is_char h2 "-" "-"
             && (1 <=? m) && (m <=? 12) && (1 <=? d) && (d <=? 31)
          then Some (days_from_civil y m d * 86400000)
          else None
      | _, _, _ => None
      end
  | _ => None
  end.

(** A JSON reader that knows the empty object only. *)
Definition JSON_parse (s : string) : option Json :=
  if bool_decide (s = "{}") then Some (JsonObj []) else None.

(** A query engine whose filters accept every document, whose sort
    leaves the order alone and whose projection keeps every field. *)
Definition engine (D : Type) : QueryEngine D :=
  mkEngine D (fun _ _ => true) (fun _ l => l) (fun _ d => d).

Definition no_query : Query := mkQuery None None None None None None None.

Definition ann : User.doc := User.mk "Ann" "ann@x.org" ["t1"] 1000.
Definition bob : User.doc := User.mk "Bob" "bob@x.org" [] 2000.
Definition t1 : Task.doc := Task.mk "write" "" 5000 false "u1" "Ann".
Definition t2 : Task.doc := Task.mk "read" "a book" 6000 true "u1" "Ann".

Definition store : Store :=
  mkStore (<["u1" := ann]> (<["u2" := bob]> ∅))
          (<["t1" := t1]> (<["t2" := t2]> ∅)).

Definition task_body (name : string) (deadline : Js.val) : TaskBody.t :=
  TaskBody.mk (Some name) deadline None Js.Undefined None None.

End Sample.

Example Date_parse_2024 : Sample.Date_parse "2024-01-01" = Some 1704067200000.
Proof. reflexivity. Qed.

Example post_task_runs :
  handle (post_task Sample.Date_parse "t3"
            (TaskBody.mk (Some "plan") (Js.Str "2024-01-01") None
                         (Js.Str "False") (Some "u2") (Some "whoever")))
         Sample.store
  = (mkResponse 201 "Task created"
       (DTask "t3" (Task.mk "plan" "" 1704067200000 false "u2" "Bob")),
     mkStore (<["u1" := Sample.ann]>
                (<["u2" := User.mk "Bob" "bob@x.org" ["t3"] 2000]> ∅))
             (<["t3" := Task.mk "plan" "" 1704067200000 false "u2" "Bob"]>
                (tasks Sample.store))).
Proof. vm_compute. reflexivity. Qed.

(* ===================================================================== *)
(** ** Running the handlers: successful runs of the task routes            *)
(* ===================================================================== *)

Ltac run_handler :=
  unfold handle, hbind, guard, when, respond, throw, hret, read,
         write_users, write_tasks in *; simpl in *.

(** What the two reference-update steps of PUT do to the users
    collection. *)
Definition remove_users (oldAssignedUser assignedUser : string)
           (oldCompleted completed : bool) (taskId : string)
           (c : gmap string User.doc) : gmap string User.doc :=
  if Js.str_truthy oldAssignedUser
     && shouldRemove oldAssignedUser assignedUser oldCompleted completed
  then alter (Users.set_pendingTasks (pull taskId)) oldAssignedUser c else c.

Definition add_users (assignedUser : string) (completed : bool) (taskId : string)
           (c : gmap string User.doc) : gmap string User.doc :=
  if Js.str_truthy assignedUser && negb completed
  then alter (Users.set_pendingTasks (addToSet taskId)) assignedUser c else c.

Lemma put_task_remove_run o a oc c id s :
  put_task_remove o a oc c id s
  = (mkStore (remove_users o a oc c id (users s)) (tasks s), Ret tt).
Proof.
  unfold put_task_remove, remove_users, Users.findByIdAndUpdate_pull.
  run_handler. destruct s as [us ts]; simpl.
  destruct (Js.str_truthy o); simpl; [|reflexivity].
  destruct (shouldRemove o a oc c); reflexivity.
Qed.

Lemma put_task_add_run a c id s :
  put_task_add a c id s
  = (mkStore (add_users a c id (users s)) (tasks s), Ret tt).
Proof.
  unfold put_task_add, add_users, Users.findByIdAndUpdate_addToSet.
  run_handler. destruct s as [us ts]; simpl.
  destruct (Js.str_truthy a && negb c); reflexivity.
Qed.

(** The assignee a PUT ends up with, given what the body asks for. *)
Definition requested_assignee (body : TaskBody.t) (old : Task.doc) : string :=
  match TaskBody.assignedUser body with
  | Some a => a
  | None => Task.assignedUser old
  end.

Lemma put_task_ok_inv Dp id body s r s' :
  handle (put_task Dp id body) s = (r, s') ->
  status r = 200 ->
  exists old dl au aun,
    tasks s !! id = Some old /\
    Js.opt_truthy (TaskBody.name body) = true /\
    Js.truthy (TaskBody.deadline body) = true /\
    deadline_date Dp (TaskBody.deadline body) = Some dl /\
    ((Js.str_truthy (requested_assignee body old) = false
      /\ au = "" /\ aun = "unassigned") \/
     (Js.str_truthy (requested_assignee body old) = true
      /\ au = requested_assignee body old
      /\ exists u, users s !! au = Some u /\ aun = User.name u)) /\
    let completed := parseBoolean (TaskBody.completed body) (Task.completed old) in
    let task := Task.mk (Js.or_str (TaskBody.name body) "")
                  (Js.or_str (TaskBody.description body) (Task.description old))
                  dl completed au aun in
    r = mkResponse 200 "Task updated" (DTask id task) /\
    s' = mkStore (add_users au completed id
                    (remove_users (Task.assignedUser old) au (Task.completed old)
                                  completed id (users s)))
                 (<[id := task]> (tasks s)).
Proof.
  unfold put_task, Tasks.findById. run_handler.
  destruct (tasks s !! id) as [old|] eqn:Hold; simpl.
  2:{ intros [= <- <-]. simpl. discriminate. }
  destruct (Js.opt_truthy (TaskBody.name body)) eqn:Hn; simpl.
  2:{ intros [= <- <-]. simpl. discriminate. }
  destruct (Js.truthy (TaskBody.deadline body)) eqn:Hd; simpl.
  2:{ intros [= <- <-]. simpl. discriminate. }
  destruct (deadline_date Dp (TaskBody.deadline body)) as [dl|] eqn:Hdl; simpl.
  2:{ intros [= <- <-]. simpl. discriminate. }
  fold (requested_assignee body old).
  destruct (Js.str_truthy (requested_assignee body old)) eqn:Hreq; simpl.
  - unfold Users.findById. run_handler.
    destruct (users s !! requested_assignee body old) as [u|] eqn:Hu; simpl.
    2:{ intros [= <- <-]. simpl. discriminate. }
    rewrite put_task_remove_run; simpl. rewrite put_task_add_run; simpl.
    intros [= <- <-] _.
    exists old, dl, (requested_assignee body old), (User.name u).
    split_and!; try done. right. split_and!; try done. by exists u.
  - rewrite put_task_remove_run; simpl.
    intros [= <- <-] _.
    exists old, dl, "", "unassigned".
    split_and!; try done. by left.
Qed.

Lemma when_add_run a c id s :
  when (Js.str_truthy a && negb c) (Users.findByIdAndUpdate_addToSet a id) s
  = (mkStore (add_users a c id (users s)) (tasks s), Ret tt).
Proof. apply put_task_add_run. Qed.

(** A PUT that does not answer 200 has written nothing. *)
Lemma put_task_fail_unchanged Dp id body s r s' :
  handle (put_task Dp id body) s = (r, s') ->
  status r <> 200 ->
  s' = s /\ (status r = 400 \/ status r = 404).
Proof.
  unfold put_task, Tasks.findById. run_handler.
  destruct (tasks s !! id) as [old|] eqn:Hold; simpl.
  2:{ intros [= <- <-]. simpl. auto. }
  destruct (Js.opt_truthy (TaskBody.name body)) eqn:Hn; simpl.
  2:{ intros [= <- <-]. simpl. auto. }
  destruct (Js.truthy (TaskBody.deadline body)) eqn:Hd; simpl.
  2:{ intros [= <- <-]. simpl. auto. }
  destruct (deadline_date Dp (TaskBody.deadline body)) as [dl|] eqn:Hdl; simpl.
  2:{ intros [= <- <-]. simpl. auto. }
  fold (requested_assignee body old).
  destruct (Js.str_truthy (requested_assignee body old)) eqn:Hreq; simpl.
  - unfold Users.findById. run_handler.
    destruct (users s !! requested_assignee body old) as [u|] eqn:Hu; simpl.
    2:{ intros [= <- <-]. simpl. auto. }
    rewrite put_task_remove_run; simpl. rewrite put_task_add_run; simpl.
    intros [= <- <-]. simpl. congruence.
  - rewrite put_task_remove_run; simpl.
    intros [= <- <-]. simpl. congruence.
Qed.

Lemma post_task_ok_inv Dp newId body s r s' :
  handle (post_task Dp newId body) s = (r, s') ->
  status r = 201 ->
  exists dl aun,
    Js.opt_truthy (TaskBody.name body) = true /\
    Js.truthy (TaskBody.deadline body) = true /\
    deadline_date Dp (TaskBody.deadline body) = Some dl /\
    let au := Js.or_str (TaskBody.assignedUser body) "" in
    ((Js.str_truthy au = false /\ aun = "unassigned") \/
     (Js.str_truthy au = true
      /\ exists u, users s !! au = Some u /\ aun = User.name u)) /\
    tasks s !! newId = None /\
    let completed := parseBoolean (TaskBody.completed body) false in
    let task := Task.mk (Js.or_str (TaskBody.name body) "")
                  (Js.or_str (TaskBody.description body) "")
                  dl completed au aun in
    r = mkResponse 201 "Task created" (DTask newId task) /\
    s' = mkStore (add_users au completed newId (users s))
                 (<[newId := task]> (tasks s)).
Proof.
  unfold post_task. run_handler.
  destruct (Js.opt_truthy (TaskBody.name body)) eqn:Hn; simpl.
  2:{ intros [= <- <-]. simpl. discriminate. }
  destruct (Js.truthy (TaskBody.deadline body)) eqn:Hd; simpl.
  2:{ intros [= <- <-]. simpl. discriminate. }
  destruct (deadline_date Dp (TaskBody.deadline body)) as [dl|] eqn:Hdl; simpl.
  2:{ intros [= <- <-]. simpl. discriminate. }
  set (au := Js.or_str (TaskBody.assignedUser body) "").
  unfold Tasks.create, Tasks.findById. run_handler.
  destruct (Js.str_truthy au) eqn:Hau; simpl.
  - unfold Users.findById. run_handler.
    destruct (users s !! au) as [u|] eqn:Hu; simpl.
    2:{ intros [= <- <-]. simpl. discriminate. }
    destruct (tasks s !! newId) eqn:Hnew; simpl.
    { intros [= <- <-]. simpl. discriminate. }
    unfold Users.findByIdAndUpdate_addToSet, add_users. run_handler.
    rewrite Hau; simpl.
    destruct (parseBoolean (TaskBody.completed body) false); simpl;
      intros [= <- <-] _; exists dl, (User.name u);
      (split_and!; try done; right; split; [done | by exists u]).
  - destruct (tasks s !! newId) eqn:Hnew; simpl.
    { intros [= <- <-]. simpl. discriminate. }
    unfold add_users. rewrite Hau; simpl.
    intros [= <- <-] _; exists dl, "unassigned".
    split_and!; try done. by left.
Qed.

(** A POST that does not answer 201 has written nothing. *)
Lemma post_task_fail_unchanged Dp newId body s r s' :
  handle (post_task Dp newId body) s = (r, s') ->
  status r <> 201 ->
  s' = s /\ (status r = 400 \/ status r = 500).
Proof.
  unfold post_task. run_handler.
  destruct (Js.opt_truthy (TaskBody.name body)) eqn:Hn; simpl.
  2:{ intros [= <- <-]. simpl. auto. }
  destruct (Js.truthy (TaskBody.deadline body)) eqn:Hd; simpl.
  2:{ intros [= <- <-]. simpl. auto. }
  destruct (deadline_date Dp (TaskBody.deadline body)) as [dl|] eqn:Hdl; simpl.
  2:{ intros [= <- <-]. simpl. auto. }
  set (au := Js.or_str (TaskBody.assignedUser body) "").
  unfold Tasks.create, Tasks.findById. run_handler.
  destruct (Js.str_truthy au) eqn:Hau; simpl.
  - unfold Users.findById. run_handler.
    destruct (users s !! au) as [u|] eqn:Hu; simpl.
    2:{ intros [= <- <-]. simpl. auto. }
    destruct (tasks s !! newId) eqn:Hnew; simpl.
    { intros [= <- <-]. simpl. auto. }
    unfold Users.findByIdAndUpdate_addToSet. run_handler.
    destruct (parseBoolean (TaskBody.completed body) false); simpl;
      intros [= <- <-]; simpl; congruence.
  - destruct (tasks s !! newId) eqn:Hnew; simpl.
    { intros [= <- <-]. simpl. auto. }
    intros [= <- <-]; simpl; congruence.
Qed.


(** When the task exists, the request is well formed and the assignee (if
    any) exists, PUT answers 200. *)
Lemma put_task_ok Dp id body s old dl :
  tasks s !! id = Some old ->
  Js.opt_truthy (TaskBody.name body) = true ->
  Js.truthy (TaskBody.deadline body) = true ->
  deadline_date Dp (TaskBody.deadline body) = Some dl ->
  (Js.str_truthy (requested_assignee body old) = true ->
   is_Some (users s !! requested_assignee body old)) ->
  status (handle (put_task Dp id body) s).1 = 200.
Proof.
  intros Hold Hn Hd Hdl Hu.
  unfold put_task, Tasks.findById. run_handler. rewrite Hold; simpl.
  rewrite Hn, Hd, Hdl; simpl.
  fold (requested_assignee body old).
  destruct (Js.str_truthy (requested_assignee body old)) eqn:Hreq; simpl.
  - destruct (Hu eq_refl) as [u Hu']. unfold Users.findById. run_handler.
    rewrite Hu'; simpl.
    rewrite put_task_remove_run; simpl. rewrite put_task_add_run; simpl.
    reflexivity.
  - rewrite put_task_remove_run; simpl. reflexivity.
Qed.



(* ===================================================================== *)
(** ** Task PUT: the description and the removal step                      *)
(* ===================================================================== *)

(** C10.  A successful PUT /tasks/:id keeps the stored description when the
    body's description is absent or the empty string, replaces it when the
    body carries a non-empty one, and so never turns a non-empty
    description into the empty one. *)
Theorem put_task_description_preserved Dp id body s r s' old :
  tasks s !! id = Some old ->
  handle (put_task Dp id body) s = (r, s') ->
  status r = 200 ->
  exists new,
    tasks s' !! id = Some new /\
    (TaskBody.description body = None \/ TaskBody.description body = Some "" ->
     Task.description new = Task.description old) /\
    (forall d, TaskBody.description body = Some d -> d <> "" ->
               Task.description new = d) /\
    (Task.description old <> "" -> Task.description new <> "").
Proof.
  intros Hold Hrun Hok.
  destruct (put_task_ok_inv _ _ _ _ _ _ Hrun Hok)
    as (old' & dl & au & aun & Hold' & _ & _ & _ & _ & Hr & Hs).
  rewrite Hold in Hold'. injection Hold' as <-.
  eexists. split.
  { rewrite Hs; simpl. apply lookup_insert_eq. }
  simpl. split_and!.
  - intros [-> | ->]; reflexivity.
  - intros d -> Hd. destruct d; [congruence | reflexivity].
  - intros Hne. destruct (TaskBody.description body) as [[|c d]|]; simpl; congruence.
Qed.

Lemma put_task_description_preserved_witness :
  exists new,
    tasks (handle (put_task Sample.Date_parse "t2"
                     (TaskBody.mk (Some "read") (Js.Str "7000") (Some "")
                                  Js.Undefined None None)) Sample.store).2
      !! "t2" = Some new /\
    Task.description new = "a book".
Proof.
  destruct (put_task_description_preserved Sample.Date_parse "t2"
              (TaskBody.mk (Some "read") (Js.Str "7000") (Some "")
                           Js.Undefined None None)
              Sample.store _ _ Sample.t2 eq_refl (surjective_pairing _) eq_refl)
    as (new & Hnew & Hkeep & _).
  exists new. split; [exact Hnew | apply Hkeep; right; reflexivity].
Defined.



(* ===================================================================== *)
(** ** Task POST and PUT: the deadline                                     *)
(* ===================================================================== *)



(* ===================================================================== *)
(** ** Running the user routes                                             *)
(* ===================================================================== *)

Lemma head_filter_is_Some {A} (p : A -> bool) (l : list A) :
  is_Some (head (List.filter p l)) <-> exists x, x ∈ l /\ p x = true.
Proof.
  induction l as [|a l IH]; simpl.
  - split; [intros [x Hx]; discriminate | intros (x & Hx & _); inversion Hx].
  - destruct (p a) eqn:Hpa; simpl.
    + split; [intros _; exists a; split; [left | done] | eauto].
    + rewrite IH. split.
      * intros (x & Hx & Hp). exists x. split; [by right | done].
      * intros (x & Hx & Hp). inversion Hx; subst; [congruence | eauto].
Qed.

Lemma findOne_found (p : string * User.doc -> bool) (c : gmap string User.doc) :
  is_Some (head (List.filter p (map_to_list c)))
  <-> exists k u, c !! k = Some u /\ p (k, u) = true.
Proof.
  rewrite head_filter_is_Some. split.
  - intros ([k u] & Hin & Hp). apply elem_of_map_to_list in Hin. eauto.
  - intros (k & u & Hin & Hp). exists (k, u). by rewrite elem_of_map_to_list.
Qed.

Lemma findOne_not_found (p : string * User.doc -> bool) (c : gmap string User.doc) :
  ~ is_Some (head (List.filter p (map_to_list c)))
  <-> forall k u, c !! k = Some u -> p (k, u) = false.
Proof.
  rewrite findOne_found. split.
  - intros Hno k u Hk. destruct (p (k, u)) eqn:Hp; [|done]. exfalso. eauto.
  - intros Hall (k & u & Hk & Hp). rewrite (Hall k u Hk) in Hp. discriminate.
Qed.

Ltac found_user :=
  match goal with |- context [@bool_decide ?P ?d] =>
    match P with is_Some _ =>
      let H := fresh in
      assert (@bool_decide P d = true) as H;
      [apply bool_decide_eq_true; apply findOne_found | rewrite H; clear H]
    end
  end.

Ltac no_user_found :=
  match goal with |- context [@bool_decide ?P ?d] =>
    match P with is_Some _ =>
      let H := fresh in
      assert (@bool_decide P d = false) as H;
      [apply bool_decide_eq_false; apply findOne_not_found | rewrite H; clear H]
    end
  end.

(** Some user of the collection has this email (compared as strings). *)
Definition email_in_use (e : string) (c : gmap string User.doc) : Prop :=
  exists k u, c !! k = Some u /\ User.email u = e.

(** Some user other than [id] has this email. *)
Definition email_used_by_other (id e : string) (c : gmap string User.doc) : Prop :=
  exists k u, c !! k = Some u /\ User.email u = e /\ k <> id.

Lemma post_user_duplicate newId now body s e :
  Js.opt_truthy (UserBody.name body) = true ->
  UserBody.email body = Some e -> e <> "" ->
  email_in_use e (users s) ->
  handle (post_user newId now body) s
  = (mkResponse 400 "A user with that email already exists" DObject, s).
Proof.
  intros Hn He Hne (k & u & Hk & Hu).
  assert (Js.str_truthy e = true) as Hte by (destruct e; [congruence | done]).
  unfold post_user, Users.findOne. run_handler. rewrite Hn, He; simpl.
  rewrite Hte; simpl.
  found_user; [|reflexivity].
  exists k, u. split; [done|]. simpl.
  apply bool_decide_eq_true. congruence.
Qed.

Lemma post_user_missing_field newId now body s :
  Js.opt_truthy (UserBody.name body) = false
  \/ Js.opt_truthy (UserBody.email body) = false ->
  handle (post_user newId now body) s
  = (mkResponse 400 "Name and email are required" DObject, s).
Proof.
  intros H. unfold post_user. run_handler.
  destruct H as [-> | ->]; simpl; [reflexivity|].
  rewrite orb_true_r. reflexivity.
Qed.

Lemma post_user_created newId now body s n e :
  UserBody.name body = Some n -> n <> "" ->
  UserBody.email body = Some e -> e <> "" ->
  ~ email_in_use e (users s) ->
  users s !! newId = None ->
  handle (post_user newId now body) s
  = (mkResponse 201 "User created"
       (DUser newId (User.mk n e (normalize_pending (UserBody.pendingTasks body)) now)),
     mkStore (<[newId := User.mk n e (normalize_pending (UserBody.pendingTasks body)) now]>
                (users s))
             (tasks s)).
Proof.
  intros Hn Hnn He Hne Hfree Hnew.
  unfold post_user, Users.findOne, Users.create, Users.findById. run_handler.
  assert (Js.str_truthy n = true) as Htn by (destruct n; [congruence | done]).
  assert (Js.str_truthy e = true) as Hte by (destruct e; [congruence | done]).
  rewrite Hn, He; simpl. rewrite Htn, Hte; simpl.
  no_user_found.
  { intros k u Hk. simpl. apply bool_decide_eq_false.
    intros [= Hu]. apply Hfree. by exists k, u. }
  simpl. rewrite Hnew. reflexivity.
Qed.

(** What the two [Task.updateMany] calls of PUT /users/:id do to the tasks
    collection. *)
Definition put_user_tasks (userId userName : string)
           (oldPendingTasks newPendingTasks : list string)
           (c : gmap string Task.doc) : gmap string Task.doc :=
  let tasksToAdd :=
    List.filter (fun t => negb (in_ids oldPendingTasks t)) newPendingTasks in
  let tasksToRemove :=
    List.filter (fun t => negb (in_ids newPendingTasks t)) oldPendingTasks in
  let c1 :=
    if nonempty tasksToAdd
    then map_imap (fun k t => Some (if in_ids tasksToAdd k
                                    then Tasks.set_assignment userId userName (Some false) t
                                    else t)) c
    else c in
  if nonempty tasksToRemove
  then map_imap (fun k t => Some (if in_ids tasksToRemove k
                                     && bool_decide (Task.assignedUser t = userId)
                                  then Tasks.set_assignment "" "unassigned" None t
                                  else t)) c1
  else c1.

(** The [dateCreated] a PUT stores: the body's value when it is truthy
    and a valid date, the old one when the body gives none. *)
Definition put_user_date Dp (body : UserBody.t) (user : User.doc) : option Z :=
  if Js.truthy (UserBody.dateCreated body)
  then Js.Date_of_value Dp (UserBody.dateCreated body)
  else Some (User.dateCreated user).

Lemma put_user_ok_inv Dp id body s r s' :
  handle (put_user Dp id body) s = (r, s') ->
  status r = 200 ->
  exists user n e dc,
    users s !! id = Some user /\
    UserBody.name body = Some n /\ n <> "" /\
    UserBody.email body = Some e /\ e <> "" /\
    ~ email_used_by_other id e (users s) /\
    put_user_date Dp body user = Some dc /\
    let newPendingTasks := normalize_pending (UserBody.pendingTasks body) in
    let user' := User.mk n e newPendingTasks dc in
    r = mkResponse 200 "User updated" (DUser id user') /\
    s' = mkStore (<[id := user']> (users s))
                 (put_user_tasks id n (User.pendingTasks user) newPendingTasks (tasks s)).
Proof.
  unfold put_user, Users.findById, Users.findOne, Users.save, Tasks.updateMany,
         put_user_date, put_user_tasks.
  run_handler.
  destruct (UserBody.name body) as [n|] eqn:Hn; simpl.
  2:{ intros [= <- <-]. simpl. discriminate. }
  destruct (Js.str_truthy n) eqn:Htn; simpl.
  2:{ intros [= <- <-]. simpl. discriminate. }
  destruct (UserBody.email body) as [e|] eqn:He; simpl.
  2:{ intros [= <- <-]. simpl. discriminate. }
  destruct (Js.str_truthy e) eqn:Hte; simpl.
  2:{ intros [= <- <-]. simpl. discriminate. }
  destruct (users s !! id) as [user|] eqn:Hu; simpl.
  2:{ intros [= <- <-]. simpl. discriminate. }
  match goal with |- context [@bool_decide ?P ?d] =>
    match P with is_Some _ => destruct (@bool_decide P d) eqn:Hex end end; simpl.
  { intros [= <- <-]. simpl. discriminate. }
  apply bool_decide_eq_false in Hex.
  assert (~ email_used_by_other id e (users s)) as Hother.
  { intros (k & u & Hk & Hue & Hkid). apply Hex. apply findOne_found.
    exists k, u. split; [done|]. simpl.
    rewrite bool_decide_eq_true_2 by congruence.
    rewrite bool_decide_eq_false_2 by done. reflexivity. }
  assert (n <> "") by (destruct n; [discriminate | done]).
  assert (e <> "") by (destruct e; [discriminate | done]).
  destruct (Js.truthy (UserBody.dateCreated body)) eqn:Hdc; simpl.
  - destruct (Js.Date_of_value Dp (UserBody.dateCreated body)) as [dc|] eqn:Hdv; simpl.
    2:{ intros [= <- <-]. simpl. discriminate. }
    intros Hrun _. exists user, n, e, dc. split_and!; try done.
    + destruct (nonempty _), (nonempty _); simpl in Hrun; by injection Hrun as <- <-.
    + destruct (nonempty _), (nonempty _); simpl in Hrun; by injection Hrun as <- <-.
  - intros Hrun _. exists user, n, e, (User.dateCreated user). split_and!; try done.
    + destruct (nonempty _), (nonempty _); simpl in Hrun; by injection Hrun as <- <-.
    + destruct (nonempty _), (nonempty _); simpl in Hrun; by injection Hrun as <- <-.
Qed.

Lemma put_user_ok Dp id body s user n e dc :
  users s !! id = Some user ->
  UserBody.name body = Some n -> n <> "" ->
  UserBody.email body = Some e -> e <> "" ->
  ~ email_used_by_other id e (users s) ->
  put_user_date Dp body user = Some dc ->
  status (handle (put_user Dp id body) s).1 = 200.
Proof.
  intros Hu Hn Hnn He Hne Hother Hdc.
  assert (Js.str_truthy n = true) as Htn by (destruct n; [congruence | done]).
  assert (Js.str_truthy e = true) as Hte by (destruct e; [congruence | done]).
  unfold put_user, Users.findById, Users.findOne, Users.save, Tasks.updateMany,
         put_user_date in *.
  run_handler. rewrite Hn, He; simpl. rewrite Htn, Hte; simpl. rewrite Hu; simpl.
  no_user_found.
  { intros k u Hk. simpl. apply not_true_iff_false. intros Hp.
    apply andb_true_iff in Hp as [Hp1 Hp2].
    apply bool_decide_eq_true in Hp1. apply negb_true_iff in Hp2.
    apply bool_decide_eq_false in Hp2.
    apply Hother. exists k, u. split_and!; [done | congruence | done]. }
  simpl.
  destruct (Js.truthy (UserBody.dateCreated body)); simpl.
  - rewrite Hdc; simpl. destruct (nonempty _), (nonempty _); reflexivity.
  - destruct (nonempty _), (nonempty _); reflexivity.
Qed.

Lemma put_user_duplicate Dp id body s user e :
  Js.opt_truthy (UserBody.name body) = true ->
  UserBody.email body = Some e -> e <> "" ->
  users s !! id = Some user ->
  email_used_by_other id e (users s) ->
  handle (put_user Dp id body) s
  = (mkResponse 400 "A user with that email already exists" DObject, s).
Proof.
  intros Hn He Hne Hu (k & u & Hk & Hue & Hkid).
  assert (Js.str_truthy e = true) as Hte by (destruct e; [congruence | done]).
  unfold put_user, Users.findById, Users.findOne. run_handler.
  rewrite Hn, He; simpl. rewrite Hte; simpl. rewrite Hu; simpl.
  found_user; [|reflexivity].
  exists k, u. split; [done|]. simpl.
  rewrite bool_decide_eq_true_2 by congruence.
  rewrite bool_decide_eq_false_2 by done. reflexivity.
Qed.

(** A PUT /users/:id that does not answer 200 has written nothing. *)
Lemma put_user_fail_unchanged Dp id body s r s' :
  handle (put_user Dp id body) s = (r, s') ->
  status r <> 200 ->
  s' = s.
Proof.
  unfold put_user, Users.findById, Users.findOne, Users.save, Tasks.updateMany.
  run_handler.
  destruct (Js.opt_truthy (UserBody.name body)); simpl.
  2:{ by intros [= <- <-]. }
  destruct (Js.opt_truthy (UserBody.email body)); simpl.
  2:{ by intros [= <- <-]. }
  destruct (users s !! id) as [user|]; simpl.
  2:{ by intros [= <- <-]. }
  match goal with |- context [@bool_decide ?P ?d] =>
    match P with is_Some _ => destruct (@bool_decide P d) end end; simpl.
  { by intros [= <- <-]. }
  destruct (Js.truthy (UserBody.dateCreated body)); simpl.
  - destruct (Js.Date_of_value Dp (UserBody.dateCreated body)); simpl.
    2:{ by intros [= <- <-]. }
    destruct (nonempty _), (nonempty _); simpl; intros [= <- <-]; simpl; congruence.
  - destruct (nonempty _), (nonempty _); simpl; intros [= <- <-]; simpl; congruence.
Qed.

Lemma nonempty_false_nil {A} (l : list A) : nonempty l = false -> l = [].
Proof. by destruct l. Qed.

Lemma in_ids_filter_not (xs ys : list string) (k : string) :
  in_ids (List.filter (fun t => negb (in_ids xs t)) ys) k = true
  <-> k ∈ ys /\ k ∉ xs.
Proof.
  unfold in_ids. rewrite bool_decide_eq_true, list_elem_of_In, filter_In,
    <- list_elem_of_In, negb_true_iff, bool_decide_eq_false. tauto.
Qed.

(** The reconciliation of PUT /users/:id, task by task: a task whose id
    was added to pendingTasks gets this user, the user's name and
    completed = false; a task whose id was removed is unassigned when it
    still points at this user; any other task is left alone. *)
Definition reconciled (userId userName : string)
           (oldPendingTasks newPendingTasks : list string)
           (k : string) (t : Task.doc) : Task.doc :=
  if bool_decide (k ∈ newPendingTasks /\ k ∉ oldPendingTasks) then
    Task.mk (Task.name t) (Task.description t) (Task.deadline t) false userId userName
  else if bool_decide (k ∈ oldPendingTasks /\ k ∉ newPendingTasks) then
    if bool_decide (Task.assignedUser t = userId)
    then Task.mk (Task.name t) (Task.description t) (Task.deadline t)
                 (Task.completed t) "" "unassigned"
    else t
  else t.

Lemma put_user_tasks_lookup userId userName oldP newP c k :
  put_user_tasks userId userName oldP newP c !! k
  = reconciled userId userName oldP newP k <$> c !! k.
Proof.
  unfold put_user_tasks, reconciled.
  set (toAdd := List.filter (fun t => negb (in_ids oldP t)) newP).
  set (toRemove := List.filter (fun t => negb (in_ids newP t)) oldP).
  assert (in_ids toAdd k = bool_decide (k ∈ newP /\ k ∉ oldP)) as Hadd.
  { apply eq_true_iff_eq. rewrite bool_decide_eq_true. apply in_ids_filter_not. }
  assert (in_ids toRemove k = bool_decide (k ∈ oldP /\ k ∉ newP)) as Hrm.
  { apply eq_true_iff_eq. rewrite bool_decide_eq_true. apply in_ids_filter_not. }
  assert (bool_decide (k ∈ newP /\ k ∉ oldP) = true ->
          bool_decide (k ∈ oldP /\ k ∉ newP) = false) as Hdisj.
  { rewrite bool_decide_eq_true, bool_decide_eq_false. tauto. }
  destruct (nonempty toAdd) eqn:Hna, (nonempty toRemove) eqn:Hnr;
    rewrite ?map_lookup_imap;
    try (apply nonempty_false_nil in Hna; rewrite Hna in Hadd; unfold in_ids in Hadd;
         simpl in Hadd; rewrite <- Hadd);
    try (apply nonempty_false_nil in Hnr; rewrite Hnr in Hrm; unfold in_ids in Hrm;
         simpl in Hrm; rewrite <- Hrm);
    destruct (c !! k) as [t|]; simpl; try reflexivity;
    rewrite ?Hadd, ?Hrm;
    try (destruct (bool_decide (k ∈ newP /\ k ∉ oldP)) eqn:Ha;
         [rewrite ?(Hdisj eq_refl) | ]; simpl; try reflexivity);
    try (destruct (bool_decide (k ∈ oldP /\ k ∉ newP)); simpl; try reflexivity);
    try (destruct (bool_decide (Task.assignedUser t = userId)); reflexivity).
Qed.

Lemma post_user_ok_inv newId now body s r s' :
  handle (post_user newId now body) s = (r, s') ->
  status r = 201 ->
  exists n e,
    UserBody.name body = Some n /\ n <> "" /\
    UserBody.email body = Some e /\ e <> "" /\
    ~ email_in_use e (users s) /\
    users s !! newId = None /\
    let user := User.mk n e (normalize_pending (UserBody.pendingTasks body)) now in
    r = mkResponse 201 "User created" (DUser newId user) /\
    s' = mkStore (<[newId := user]> (users s)) (tasks s).
Proof.
  unfold post_user, Users.findOne, Users.create, Users.findById. run_handler.
  destruct (UserBody.name body) as [n|] eqn:Hn; simpl.
  2:{ intros [= <- <-]. simpl. discriminate. }
  destruct (Js.str_truthy n) eqn:Htn; simpl.
  2:{ intros [= <- <-]. simpl. discriminate. }
  destruct (UserBody.email body) as [e|] eqn:He; simpl.
  2:{ intros [= <- <-]. simpl. discriminate. }
  destruct (Js.str_truthy e) eqn:Hte; simpl.
  2:{ intros [= <- <-]. simpl. discriminate. }
  match goal with |- context [@bool_decide ?P ?d] =>
    match P with is_Some _ => destruct (@bool_decide P d) eqn:Hex end end; simpl.
  { intros [= <- <-]. simpl. discriminate. }
  apply bool_decide_eq_false in Hex.
  destruct (users s !! newId) eqn:Hnew; simpl.
  { intros [= <- <-]. simpl. discriminate. }
  intros [= <- <-] _. exists n, e. split_and!; try done.
  - by destruct n.
  - by destruct e.
  - intros (k & u & Hk & Hu). apply Hex. apply findOne_found.
    exists k, u. split; [done|]. simpl. apply bool_decide_eq_true. congruence.
Qed.

(** A POST /users that does not answer 201 has written nothing. *)
Lemma post_user_fail_unchanged newId now body s r s' :
  handle (post_user newId now body) s = (r, s') ->
  status r <> 201 ->
  s' = s.
Proof.
  unfold post_user, Users.findOne, Users.create, Users.findById. run_handler.
  destruct (Js.opt_truthy (UserBody.name body)); simpl.
  2:{ by intros [= <- <-]. }
  destruct (Js.opt_truthy (UserBody.email body)); simpl.
  2:{ by intros [= <- <-]. }
  match goal with |- context [@bool_decide ?P ?d] =>
    match P with is_Some _ => destruct (@bool_decide P d) end end; simpl.
  { by intros [= <- <-]. }
  destruct (users s !! newId); simpl.
  { by intros [= <- <-]. }
  intros [= <- <-]; simpl; congruence.
Qed.

Lemma delete_user_found id s user :
  users s !! id = Some user ->
  handle (delete_user id) s
  = (mkResponse 200 "User deleted" DObject,
     mkStore (delete id (users s))
             (map_imap (fun _ t => Some (if bool_decide (Task.assignedUser t = id)
                                         then Tasks.set_assignment "" "unassigned" None t
                                         else t)) (tasks s))).
Proof.
  intros Hu. unfold delete_user, Users.findById, Tasks.updateMany, Users.deleteOne.
  run_handler. rewrite Hu. reflexivity.
Qed.

Lemma delete_user_missing id s :
  users s !! id = None ->
  handle (delete_user id) s = (mkResponse 404 "User not found" DObject, s).
Proof.
  intros Hu. unfold delete_user, Users.findById. run_handler. rewrite Hu. reflexivity.
Qed.


(* ===================================================================== *)
(** ** User PUT: reconciliation of pendingTasks against the tasks          *)
(* ===================================================================== *)

(** C3.  After a successful PUT /users/:id the user holds the new
    pendingTasks and the new name, and every task is the old one
    reconciled: an added id gets this user's id, the updated name and
    completed = false; a removed id is unassigned only when the task
    still points at this user; every other task is unchanged. *)
Theorem put_user_reconciliation Dp id body s r s' :
  handle (put_user Dp id body) s = (r, s') ->
  status r = 200 ->
  exists old new,
    users s !! id = Some old /\
    users s' !! id = Some new /\
    UserBody.name body = Some (User.name new) /\
    User.pendingTasks new = normalize_pending (UserBody.pendingTasks body) /\
    forall k,
      tasks s' !! k
      = reconciled id (User.name new) (User.pendingTasks old) (User.pendingTasks new) k
          <$> tasks s !! k.
Proof.
  intros Hrun Hok.
  destruct (put_user_ok_inv _ _ _ _ _ _ Hrun Hok)
    as (user & n & e & dc & Hu & Hn & _ & _ & _ & _ & _ & _ & Hs).
  exists user. eexists. split; [done|]. split.
  { rewrite Hs; simpl. apply lookup_insert_eq. }
  simpl. split; [done|]. split; [done|].
  intros k. rewrite Hs; simpl. apply put_user_tasks_lookup.
Qed.

Lemma put_user_reconciliation_witness :
  tasks (handle (put_user Sample.Date_parse "u2"
                   (UserBody.mk (Some "Bobby") (Some "bob@x.org") (PScalar "t2")
                                Js.Undefined)) Sample.store).2 !! "t2"
  = Some (Task.mk "read" "a book" 6000 false "u2" "Bobby").
Proof.
  destruct (put_user_reconciliation Sample.Date_parse "u2"
              (UserBody.mk (Some "Bobby") (Some "bob@x.org") (PScalar "t2")
                           Js.Undefined)
              Sample.store _ _ (surjective_pairing _) eq_refl)
    as (old & new & Hold & Hnew & Hname & Hpend & Htasks).
  rewrite Htasks.
  vm_compute in Hold. injection Hold as <-.
  simpl in Hname. injection Hname as <-.
  rewrite Hpend. vm_compute. reflexivity.
Defined.

(* ===================================================================== *)
(** ** Users: email uniqueness, deletion, dateCreated                      *)
(* ===================================================================== *)

(** C6.  POST /users with an email some user already has (compared as
    strings, so case matters) answers 400 and stores nothing; with a
    non-empty name the answer is the duplicate-email one.  With non-empty
    name and email, an email no user has and a free id, POST answers 201
    and stores the user.  PUT /users/:id looks for the email among the
    other users only: a user keeps its own email, and the email of another
    user is refused with the duplicate-email answer. *)
Theorem user_email_uniqueness Dp :
  (forall newId now body s e,
      UserBody.email body = Some e ->
      email_in_use e (users s) ->
      exists msg,
        handle (post_user newId now body) s = (mkResponse 400 msg DObject, s)
        /\ (Js.opt_truthy (UserBody.name body) = true -> e <> "" ->
            msg = "A user with that email already exists")) /\
  (forall newId now body s n e,
      UserBody.name body = Some n -> n <> "" ->
      UserBody.email body = Some e -> e <> "" ->
      ~ email_in_use e (users s) ->
      users s !! newId = None ->
      exists u s',
        handle (post_user newId now body) s
        = (mkResponse 201 "User created" (DUser newId u), s')
        /\ users s' !! newId = Some u /\ User.email u = e) /\
  (forall id body s user n dc,
      users s !! id = Some user ->
      UserBody.name body = Some n -> n <> "" ->
      UserBody.email body = Some (User.email user) -> User.email user <> "" ->
      ~ email_used_by_other id (User.email user) (users s) ->
      put_user_date Dp body user = Some dc ->
      exists u s',
        handle (put_user Dp id body) s
        = (mkResponse 200 "User updated" (DUser id u), s')
        /\ users s' !! id = Some u /\ User.email u = User.email user) /\
  (forall id body s user e,
      users s !! id = Some user ->
      Js.opt_truthy (UserBody.name body) = true ->
      UserBody.email body = Some e -> e <> "" ->
      email_used_by_other id e (users s) ->
      handle (put_user Dp id body) s
      = (mkResponse 400 "A user with that email already exists" DObject, s)).
Proof.
  split_and!.
  - intros newId now body s e He Huse.
    destruct (Js.opt_truthy (UserBody.name body)) eqn:Hn.
    + destruct (decide (e = "")) as [-> | Hne].
      * eexists. split; [apply post_user_missing_field; right; by rewrite He | done].
      * eexists. split; [by eapply post_user_duplicate | done].
    + eexists. split; [apply post_user_missing_field; by left | done].
  - intros newId now body s n e Hn Hnn He Hne Hfree Hnew.
    eexists. eexists. split; [by apply post_user_created|].
    simpl. split; [apply lookup_insert_eq | done].
  - intros id body s user n dc Hu Hn Hnn He Hne Hother Hdc.
    pose proof (put_user_ok Dp id body s user n _ dc Hu Hn Hnn He Hne Hother Hdc) as Hok.
    destruct (handle (put_user Dp id body) s) as [r s'] eqn:Hrun.
    destruct (put_user_ok_inv _ _ _ _ _ _ Hrun Hok)
      as (user' & n' & e' & dc' & Hu' & Hn' & _ & He' & _ & _ & _ & Hr & Hs).
    simpl in Hr, Hs. eexists. exists s'. split; [by rewrite Hr|].
    split; [rewrite Hs; simpl; apply lookup_insert_eq|].
    simpl. congruence.
  - intros id body s user e Hu Hn He Hne Hother. by eapply put_user_duplicate.
Qed.

Lemma user_email_uniqueness_witness :
  (exists msg,
      handle (post_user "u3" 3000
                (UserBody.mk (Some "Eve") (Some "ann@x.org") PAbsent Js.Undefined))
             Sample.store
      = (mkResponse 400 msg DObject, Sample.store)
      /\ msg = "A user with that email already exists") /\
  (exists u s',
      handle (put_user Sample.Date_parse "u1"
                (UserBody.mk (Some "Ann") (Some "ann@x.org") (PArray ["t1"])
                             Js.Undefined))
             Sample.store
      = (mkResponse 200 "User updated" (DUser "u1" u), s')
      /\ users s' !! "u1" = Some u /\ User.email u = "ann@x.org").
Proof.
  pose proof (user_email_uniqueness Sample.Date_parse) as (Hdup & _ & Hkeep & _).
  split.
  - destruct (Hdup "u3" 3000
                (UserBody.mk (Some "Eve") (Some "ann@x.org") PAbsent Js.Undefined)
                Sample.store "ann@x.org" eq_refl) as (msg & Hrun & Hmsg).
    { exists "u1", Sample.ann. split; reflexivity. }
    exists msg. split; [exact Hrun | apply Hmsg; [reflexivity | discriminate]].
  - apply (Hkeep "u1" _ Sample.store Sample.ann "Ann" 1000);
      try reflexivity; try discriminate.
    intros (k & u & Hk & Hu & Hne).
    destruct (decide (k = "u2")) as [-> | Hk2].
    + vm_compute in Hk. injection Hk as <-. discriminate.
    + unfold Sample.store in Hk. simpl in Hk.
      rewrite lookup_insert_ne in Hk by congruence.
      rewrite lookup_insert_ne in Hk by congruence.
      rewrite lookup_empty in Hk. discriminate.
Defined.




(** C8, as the code has it.  POST /users stores the clock reading as
    dateCreated whatever the body carries; PUT /users/:id stores the
    body's dateCreated, read as a date, when the body gives a truthy one,
    and keeps the stored dateCreated otherwise. *)
Theorem user_dateCreated_override Dp :
  (forall newId now body s r s',
      handle (post_user newId now body) s = (r, s') -> status r = 201 ->
      exists u, users s' !! newId = Some u /\ User.dateCreated u = now) /\
  (forall id body s r s',
      handle (put_user Dp id body) s = (r, s') -> status r = 200 ->
      exists old new,
        users s !! id = Some old /\ users s' !! id = Some new /\
        (Js.truthy (UserBody.dateCreated body) = true ->
         Js.Date_of_value Dp (UserBody.dateCreated body) = Some (User.dateCreated new)) /\
        (Js.truthy (UserBody.dateCreated body) = false ->
         User.dateCreated new = User.dateCreated old)) /\
  (forall id body s user n e dc,
      users s !! id = Some user ->
      UserBody.name body = Some n -> n <> "" ->
      UserBody.email body = Some e -> e <> "" ->
      ~ email_used_by_other id e (users s) ->
      Js.truthy (UserBody.dateCreated body) = true ->
      Js.Date_of_value Dp (UserBody.dateCreated body) = Some dc ->
      status (handle (put_user Dp id body) s).1 = 200).
Proof.
  split_and!.
  - intros newId now body s r s' Hrun Hok.
    destruct (post_user_ok_inv _ _ _ _ _ _ Hrun Hok)
      as (n & e & _ & _ & _ & _ & _ & _ & _ & Hs).
    eexists. split; [rewrite Hs; simpl; apply lookup_insert_eq | done].
  - intros id body s r s' Hrun Hok.
    destruct (put_user_ok_inv _ _ _ _ _ _ Hrun Hok)
      as (user & n & e & dc & Hu & _ & _ & _ & _ & _ & Hdc & _ & Hs).
    exists user. eexists. split; [done|]. split.
    { rewrite Hs; simpl. apply lookup_insert_eq. }
    unfold put_user_date in Hdc. simpl. split.
    + intros Ht. by rewrite Ht in Hdc.
    + intros Ht. rewrite Ht in Hdc. congruence.
  - intros id body s user n e dc Hu Hn Hnn He Hne Hother Ht Hdc.
    apply (put_user_ok Dp id body s user n e dc); try done.
    unfold put_user_date. by rewrite Ht.
Qed.

Lemma user_dateCreated_override_witness :
  exists new,
    users (handle (put_user Sample.Date_parse "u2"
                     (UserBody.mk (Some "Bob") (Some "bob@x.org") PAbsent
                                  (Js.Str "2024-01-01"))) Sample.store).2 !! "u2"
    = Some new
    /\ User.dateCreated new = 1704067200000.
Proof.
  pose proof (user_dateCreated_override Sample.Date_parse) as (_ & Hput & _).
  destruct (Hput "u2"
              (UserBody.mk (Some "Bob") (Some "bob@x.org") PAbsent (Js.Str "2024-01-01"))
              Sample.store _ _ (surjective_pairing _) eq_refl)
    as (old & new & _ & Hnew & Hdate & _).
  exists new. split; [exact Hnew|].
  specialize (Hdate eq_refl).
  assert (Some (User.dateCreated new) = Some 1704067200000) as [= Hd]
    by (rewrite <- Hdate; vm_compute; reflexivity).
  exact Hd.
Defined.

(** C8 fails at creation: a POST /users whose body carries dateCreated
    1234 stores the clock reading 5000 instead. *)
Lemma post_user_ignores_dateCreated :
  let body := UserBody.mk (Some "Cy") (Some "cy@x.org") PAbsent
                          (Js.Num (Js.Fin 1234 0)) in
  let out := handle (post_user "u9" 5000 body) Sample.store in
  status out.1 = 201
  /\ Js.Date_of_value Sample.Date_parse (UserBody.dateCreated body) = Some 1234
  /\ (User.dateCreated <$> users out.2 !! "u9") = Some 5000
  /\ ~ (forall u, users out.2 !! "u9" = Some u ->
                  Js.Date_of_value Sample.Date_parse (UserBody.dateCreated body)
                  = Some (User.dateCreated u)).
Proof.
  split_and!; [reflexivity | reflexivity | reflexivity |].
  intros H.
  specialize (H (User.mk "Cy" "cy@x.org" [] 5000) eq_refl).
  vm_compute in H. discriminate.
Qed.

(** C2 at its failing input.  Ann (u1) holds task t1, whose
    assignedUserName is Ann.  A PUT /users/u1 that renames her to Anna and
    keeps her pendingTasks answers 200; t1 still points at u1 and still
    carries the name Ann. *)
Theorem put_user_rename_leaves_stale_name :
  let body := UserBody.mk (Some "Anna") (Some "ann@x.org") (PArray ["t1"])
                          Js.Undefined in
  let out := handle (put_user Sample.Date_parse "u1" body) Sample.store in
  status out.1 = 200
  /\ (User.name <$> users out.2 !! "u1") = Some "Anna"
  /\ (Task.assignedUser <$> tasks out.2 !! "t1") = Some "u1"
  /\ (Task.assignedUserName <$> tasks out.2 !! "t1") = Some "Ann".
Proof. vm_compute. split_and!; reflexivity. Qed.

(* ===================================================================== *)
(** ** The list endpoints: the default limit                               *)
(* ===================================================================== *)

Section ListEndpoints.

Variable JSON_parse : string -> option Json.

(** The filter both list handlers hand to the store. *)
Definition where_of (q : Query) : Json :=
  json_or (parseJSONParam JSON_parse (q_where q)) (JsonObj []).

(** The query the handlers build, before any limit is put on it. *)
Definition base_query (q : Query) : MQuery :=
  let sort := parseJSONParam JSON_parse (q_sort q) in
  let select := json_or (parseJSONParam JSON_parse (q_select q))
                        (parseJSONParam JSON_parse (q_filter q)) in
  let query := find (where_of q) in
  let query := if json_truthy sort then sort_ sort query else query in
  let query := if json_truthy select then select_ select query else query in
  match int_truthy (int_param (q_skip q) None) with
  | Some n => skip_ n query
  | None => query
  end.

(** The fallback to the empty filter makes [where_] always truthy. *)
Lemma where_of_truthy q : json_truthy (where_of q) = true.
Proof.
  unfold where_of, json_or.
  destruct (json_truthy (parseJSONParam JSON_parse (q_where q))) eqn:H; [exact H | reflexivity].
Qed.

Lemma base_query_no_limit q : mq_limit (base_query q) = None.
Proof.
  unfold base_query.
  destruct (json_truthy (parseJSONParam JSON_parse (q_sort q)));
    destruct (json_truthy (json_or _ _));
    destruct (int_truthy _); reflexivity.
Qed.

Lemma list_query_run q dflt s :
  (exists msg, list_query JSON_parse q dflt s = (s, Respond (mkResponse 400 msg DList)))
  \/ list_query JSON_parse q dflt s
     = (s, Ret (where_of q, bool_decide (q_count q = Some "true"),
                match int_truthy (int_param (q_limit q) dflt) with
                | Some n => limit_ n (base_query q)
                | None => base_query q
                end)).
Proof.
  unfold list_query, base_query, where_of. run_handler.
  destruct (Js.opt_truthy (q_where q) && _); simpl; [left; eauto|].
  destruct (Js.opt_truthy (q_sort q) && _); simpl; [left; eauto|].
  destruct ((Js.opt_truthy (q_select q) || Js.opt_truthy (q_filter q)) && _);
    simpl; [left; eauto|].
  right. reflexivity.
Qed.

Lemma exec_limit {D} (E : QueryEngine D) (qy : MQuery) (n : Z) (c : gmap string D) :
  mq_limit qy = None ->
  exec E (limit_ n qy) c = take (Z.to_nat (Z.abs n)) <$> exec E qy c.
Proof.
  intros Hl. unfold exec, limit_. simpl. rewrite Hl.
  destruct (mq_skip qy) as [k|]; [destruct (k <? 0); [reflexivity|] |];
    simpl; destruct (mq_select qy); simpl; f_equal;
    symmetry; apply firstn_map.
Qed.

Lemma exec_find {D} (E : QueryEngine D) (w : Json) (c : gmap string D) :
  exec E (find w) c = Some (matching E w c).
Proof. reflexivity. Qed.

(** C9.  When the caller gives no limit (and does not ask for a count),
    a successful GET /tasks returns the first 100 documents of what the
    query yields without a limit, hence at most 100 records, while a
    successful GET /users returns all of them; with no sort, projection
    or skip either, GET /users answers every user the filter matches
    and GET /tasks the first 100 matching tasks. *)
Theorem default_limit_tasks_only (UQ : QueryEngine User.doc)
        (TQ : QueryEngine Task.doc) (q : Query) (s : Store) :
  Js.opt_truthy (q_limit q) = false ->
  q_count q <> Some "true" ->
  mq_limit (base_query q) = None /\
  (forall r s',
      handle (get_tasks JSON_parse TQ q) s = (r, s') -> status r = 200 ->
      s' = s /\
      exists all, exec TQ (base_query q) (tasks s) = Some all
                  /\ data r = DTasks (take 100 all)
                  /\ (length (take 100 all) <= 100)%nat) /\
  (forall r s',
      handle (get_users JSON_parse UQ q) s = (r, s') -> status r = 200 ->
      s' = s /\
      exists all, exec UQ (base_query q) (users s) = Some all
                  /\ data r = DUsers all) /\
  (Js.opt_truthy (q_sort q) = false -> Js.opt_truthy (q_select q) = false ->
   Js.opt_truthy (q_filter q) = false -> Js.opt_truthy (q_skip q) = false ->
   handle (get_users JSON_parse UQ q) s
   = (mkResponse 200 "OK" (DUsers (matching UQ (where_of q) (users s))), s)
   /\ handle (get_tasks JSON_parse TQ q) s
      = (mkResponse 200 "OK" (DTasks (take 100 (matching TQ (where_of q) (tasks s)))), s)).
Proof.
  intros Hlim Hcount.
  assert (bool_decide (q_count q = Some "true") = false) as Hc
      by (by apply bool_decide_eq_false).
  split; [apply base_query_no_limit|]. split_and!.
  - intros r s'. unfold get_tasks. unfold handle, hbind.
    destruct (list_query_run q (Some 100) s) as [(msg & ->) | ->].
    { intros [= <- <-]. simpl. discriminate. }
    rewrite Hc. unfold int_param. rewrite Hlim. simpl.
    rewrite exec_limit by apply base_query_no_limit.
    unfold read. simpl.
    destruct (exec TQ (base_query q) (tasks s)) as [all|]; simpl.
    2:{ intros [= <- <-]. simpl. discriminate. }
    intros [= <- <-] _. split; [done|]. exists all. split_and!; try done.
    rewrite length_take. lia.
  - intros r s'. unfold get_users. unfold handle, hbind.
    destruct (list_query_run q None s) as [(msg & ->) | ->].
    { intros [= <- <-]. simpl. discriminate. }
    rewrite Hc. unfold int_param. rewrite Hlim. simpl.
    unfold read. simpl.
    destruct (exec UQ (base_query q) (users s)) as [all|]; simpl.
    2:{ intros [= <- <-]. simpl. discriminate. }
    intros [= <- <-] _. split; [done|]. by exists all.
  - intros Hsort Hsel Hfil Hskip.
    assert (base_query q = find (where_of q)) as Hbase.
    { unfold base_query, parseJSONParam, int_param.
      rewrite Hsort, Hsel, Hfil, Hskip. reflexivity. }
    assert (forall dflt, list_query JSON_parse q dflt s
              = (s, Ret (where_of q, false,
                         match int_truthy dflt with
                         | Some n => limit_ n (find (where_of q))
                         | None => find (where_of q)
                         end))) as Hrun.
    { intros dflt. unfold list_query. fold (where_of q).
      unfold guard, hbind, hret, respond.
      rewrite where_of_truthy, Hsort, Hsel, Hfil, Hc. simpl.
      rewrite andb_false_r.
      unfold parseJSONParam, int_param.
      rewrite Hsort, Hsel, Hfil, Hskip, Hlim. reflexivity. }
    split.
    + unfold get_users, handle, hbind. rewrite Hrun. reflexivity.
    + unfold get_tasks, handle, hbind. rewrite Hrun. reflexivity.
Qed.

End ListEndpoints.

(** A store with 101 tasks. *)
Fixpoint many_tasks (n : nat) : gmap string Task.doc :=
  match n with
  | O => ∅
  | S k => <[string_of_list_ascii (repeat "a"%char n) := Sample.t1]> (many_tasks k)
  end.

Definition crowded_store : Store := mkStore (users Sample.store) (many_tasks 101).

Lemma default_limit_tasks_only_witness :
  size (tasks crowded_store) = 101%nat /\
  (exists l,
      handle (get_tasks Sample.JSON_parse (Sample.engine _) Sample.no_query) crowded_store
      = (mkResponse 200 "OK" (DTasks l), crowded_store)
      /\ length l = 100%nat) /\
  (exists l,
      handle (get_users Sample.JSON_parse (Sample.engine _) Sample.no_query) crowded_store
      = (mkResponse 200 "OK" (DUsers l), crowded_store)
      /\ length l = size (users crowded_store)).
Proof.
  destruct (default_limit_tasks_only Sample.JSON_parse (Sample.engine _)
              (Sample.engine _) Sample.no_query crowded_store
              eq_refl ltac:(discriminate))
    as (_ & _ & _ & Hplain).
  destruct (Hplain eq_refl eq_refl eq_refl eq_refl) as [Hu Ht].
  split; [vm_compute; reflexivity|]. split.
  - eexists. split; [exact Ht | vm_compute; reflexivity].
  - eexists. split; [exact Hu | vm_compute; reflexivity].
Defined.

(* ===================================================================== *)
(** ** The two-way reference: pendingTasks against the tasks               *)
(* ===================================================================== *)

Lemma elem_of_addToSet (x y : string) (l : list string) :
  y ∈ addToSet x l <-> y = x \/ y ∈ l.
Proof.
  unfold addToSet. case_bool_decide as Hx.
  - split; [by right | intros [-> | H]; done].
  - rewrite elem_of_app, list_elem_of_singleton. tauto.
Qed.

Lemma elem_of_pull (x y : string) (l : list string) :
  y ∈ pull x l <-> y <> x /\ y ∈ l.
Proof.
  unfold pull. rewrite list_elem_of_In, filter_In, <- list_elem_of_In,
    negb_true_iff, bool_decide_eq_false. tauto.
Qed.

Lemma delete_task_found id s task :
  tasks s !! id = Some task ->
  handle (delete_task id) s
  = (mkResponse 200 "Task deleted" DObject,
     mkStore (if Js.str_truthy (Task.assignedUser task)
              then alter (Users.set_pendingTasks (pull id)) (Task.assignedUser task) (users s)
              else users s)
             (delete id (tasks s))).
Proof.
  intros Ht. unfold delete_task, Tasks.findById, Users.findByIdAndUpdate_pull,
               Tasks.deleteOne.
  run_handler. rewrite Ht. simpl.
  destruct (Js.str_truthy (Task.assignedUser task)); reflexivity.
Qed.

Lemma delete_task_missing id s :
  tasks s !! id = None ->
  handle (delete_task id) s = (mkResponse 404 "Task not found" DObject, s).
Proof.
  intros Ht. unfold delete_task, Tasks.findById. run_handler. rewrite Ht. reflexivity.
Qed.

(** Every user's pendingTasks holds exactly the ids of the tasks that
    are assigned to that user and not completed.  (No user has the empty
    id, which is how a task says it is unassigned.) *)
Definition consistent (s : Store) : Prop :=
  users s !! "" = None /\
  forall uid u, users s !! uid = Some u ->
    forall tid, tid ∈ User.pendingTasks u <->
      exists t, tasks s !! tid = Some t
                /\ Task.assignedUser t = uid /\ Task.completed t = false.

(** A request to the task routes that writes. *)
Inductive TaskRequest : Type :=
| PostTask (newId : string) (body : TaskBody.t)
| PutTask (id : string) (body : TaskBody.t)
| DeleteTask (id : string).

Definition serve_task Dp (rq : TaskRequest) (s : Store) : Response * Store :=
  match rq with
  | PostTask newId body => handle (post_task Dp newId body) s
  | PutTask id body => handle (put_task Dp id body) s
  | DeleteTask id => handle (delete_task id) s
  end.



Lemma str_truthy_iff (x : string) : Js.str_truthy x = true <-> x <> "".
Proof. destruct x; simpl; split; congruence. Qed.

Lemma lookup_add_users a c id U uid :
  add_users a c id U !! uid
  = (if bool_decide (uid = a) && Js.str_truthy a && negb c
     then Users.set_pendingTasks (addToSet id) else fun u => u) <$> U !! uid.
Proof.
  unfold add_users. destruct (Js.str_truthy a && negb c) eqn:Hc.
  - rewrite lookup_alter. case_decide as Hd.
    + subst. rewrite bool_decide_eq_true_2 by done. simpl. by rewrite Hc.
    + rewrite bool_decide_eq_false_2 by done. simpl. by destruct (U !! uid).
  - rewrite <- andb_assoc, Hc, andb_false_r. by destruct (U !! uid).
Qed.

Lemma lookup_remove_users o a oc c id U uid :
  remove_users o a oc c id U !! uid
  = (if bool_decide (uid = o) && Js.str_truthy o && shouldRemove o a oc c
     then Users.set_pendingTasks (pull id) else fun u => u) <$> U !! uid.
Proof.
  unfold remove_users. destruct (Js.str_truthy o && shouldRemove o a oc c) eqn:Hc.
  - rewrite lookup_alter. case_decide as Hd.
    + subst. rewrite bool_decide_eq_true_2 by done. simpl. by rewrite Hc.
    + rewrite bool_decide_eq_false_2 by done. simpl. by destruct (U !! uid).
  - rewrite <- andb_assoc, Hc, andb_false_r. by destruct (U !! uid).
Qed.

Lemma consistent_after_write s id (old : option Task.doc) task :
  consistent s ->
  tasks s !! id = old ->
  let oa := from_option Task.assignedUser "" old in
  let oc := from_option Task.completed false old in
  consistent
    (mkStore (add_users (Task.assignedUser task) (Task.completed task) id
                (remove_users oa (Task.assignedUser task) oc (Task.completed task)
                              id (users s)))
             (<[id := task]> (tasks s))).
Proof.
  intros [Hempty Hcons] Hold oa oc. split; simpl.
  { rewrite lookup_add_users, lookup_remove_users, Hempty. reflexivity. }
  intros uid u' Hu' tid.
  rewrite lookup_add_users, lookup_remove_users in Hu'.
  destruct (users s !! uid) as [u|] eqn:Hu; simpl in Hu'; [|discriminate].
  injection Hu' as <-.
  assert (uid <> "") as Hne0 by (intros ->; congruence).
  pose proof (Hcons uid u Hu) as Hc.
  set (au := Task.assignedUser task) in *. set (c := Task.completed task) in *.
  destruct (decide (tid = id)) as [-> | Hne].
  - rewrite lookup_insert_eq.
    assert ((exists t, Some task = Some t /\ Task.assignedUser t = uid
                       /\ Task.completed t = false)
            <-> au = uid /\ c = false) as ->.
    { split; [intros (t & [= <-] & H1 & H2); done | intros [H1 H2]; eauto]. }
    assert (id ∈ User.pendingTasks u <-> oa = uid /\ oc = false) as Hin.
    { rewrite (Hc id), Hold. unfold oa, oc. destruct old as [t|]; simpl.
      - split; [intros (t' & [= <-] & H1 & H2); done | intros [H1 H2]; eauto].
      - split; [intros (t' & [=] & _) | intros [H1 _]; congruence]. }
    destruct (bool_decide (uid = au)) eqn:Hua; simpl.
    + apply bool_decide_eq_true in Hua. subst uid.
      assert (Js.str_truthy au = true) as -> by (by apply str_truthy_iff).
      simpl. destruct c eqn:Hcc; simpl.
      * (* completed now: not added; must not remain *)
        destruct (bool_decide (au = oa)) eqn:Hao; simpl.
        -- apply bool_decide_eq_true in Hao.
           rewrite <- Hao. 
           assert (Js.str_truthy au = true) as -> by (by apply str_truthy_iff).
           unfold shouldRemove. simpl. rewrite orb_true_r. simpl.
           rewrite elem_of_pull. split; [tauto | intros [_ ?]; congruence].
        -- apply bool_decide_eq_false in Hao. rewrite Hin.
           split; [intros [? _]; congruence | intros [_ ?]; congruence].
      * rewrite elem_of_addToSet. tauto.
    + apply bool_decide_eq_false in Hua.
      destruct (bool_decide (uid = oa)) eqn:Huo; simpl.
      * apply bool_decide_eq_true in Huo. subst uid.
        assert (Js.str_truthy oa = true) as -> by (by apply str_truthy_iff).
        unfold shouldRemove. rewrite bool_decide_eq_false_2 by done. simpl.
        rewrite elem_of_pull. split; [tauto | intros [? _]; congruence].
      * apply bool_decide_eq_false in Huo. rewrite Hin.
        split; [intros [? _]; congruence | intros [? _]; congruence].
  - rewrite lookup_insert_ne by done. rewrite <- (Hc tid).
    destruct (_ && _ && _); destruct (_ && _ && _); simpl;
      rewrite ?elem_of_addToSet, ?elem_of_pull; tauto.
Qed.

Lemma consistent_after_delete s id task :
  consistent s ->
  tasks s !! id = Some task ->
  consistent
    (mkStore (if Js.str_truthy (Task.assignedUser task)
              then alter (Users.set_pendingTasks (pull id)) (Task.assignedUser task) (users s)
              else users s)
             (delete id (tasks s))).
Proof.
  intros [Hempty Hcons] Hold. split; simpl.
  { destruct (Js.str_truthy (Task.assignedUser task)) eqn:Ht; [|done].
    rewrite lookup_alter_ne; [done|]. apply str_truthy_iff in Ht. congruence. }
  intros uid u' Hu' tid.
  assert (exists u, users s !! uid = Some u
                    /\ forall x, x ∈ User.pendingTasks u' <->
                         (if bool_decide (uid = Task.assignedUser task)
                          then x <> id /\ x ∈ User.pendingTasks u
                          else x ∈ User.pendingTasks u)) as (u & Hu & Hmem).
  { destruct (Js.str_truthy (Task.assignedUser task)) eqn:Ht.
    - rewrite lookup_alter in Hu'. case_decide as Hd.
      + subst uid. destruct (users s !! Task.assignedUser task) as [u|]; [|done].
        injection Hu' as <-. exists u. split; [done|]. intros x.
        rewrite bool_decide_eq_true_2 by done. simpl. apply elem_of_pull.
      + exists u'. split; [done|]. intros x.
        rewrite bool_decide_eq_false_2 by congruence. done.
    - exists u'. split; [done|]. intros x.
      rewrite bool_decide_eq_false_2; [done|].
      intros ->. apply not_true_iff_false in Ht. apply Ht, str_truthy_iff.
      intros He. rewrite He in Hu'. congruence. }
  rewrite Hmem. pose proof (Hcons uid u Hu) as Hc.
  destruct (decide (tid = id)) as [-> | Hne].
  - rewrite lookup_delete_eq.
    assert (~ exists t : Task.doc, None = Some t /\ Task.assignedUser t = uid
                                   /\ Task.completed t = false) as Hno
        by (intros (t & [=] & _)).
    case_bool_decide as Hd.
    + split; [intros [? _]; congruence | by intros ?].
    + rewrite (Hc id), Hold.
      split; [intros (t & [= <-] & H1 & _); congruence | by intros ?].
  - rewrite lookup_delete_ne by done. rewrite <- (Hc tid).
    case_bool_decide; tauto.
Qed.

Lemma serve_task_consistent Dp rq s :
  consistent s -> consistent (serve_task Dp rq s).2.
Proof.
  intros Hc. destruct rq as [newId body | id body | id]; simpl.
  - destruct (handle (post_task Dp newId body) s) as [r s'] eqn:Hrun. simpl.
    destruct (decide (status r = 201)) as [Hok | Hno].
    + destruct (post_task_ok_inv _ _ _ _ _ _ Hrun Hok)
        as (dl & aun & _ & _ & _ & _ & Hnew & _ & Hs).
      rewrite Hs.
      match goal with |- consistent (mkStore _ (<[_ := ?t]> _)) =>
        exact (consistent_after_write s newId None t Hc Hnew) end.
    + destruct (post_task_fail_unchanged _ _ _ _ _ _ Hrun Hno) as [-> _]. done.
  - destruct (handle (put_task Dp id body) s) as [r s'] eqn:Hrun. simpl.
    destruct (decide (status r = 200)) as [Hok | Hno].
    + destruct (put_task_ok_inv _ _ _ _ _ _ Hrun Hok)
        as (old & dl & au & aun & Hold & _ & _ & _ & _ & _ & Hs).
      rewrite Hs.
      match goal with |- consistent (mkStore _ (<[_ := ?t]> _)) =>
        exact (consistent_after_write s id (Some old) t Hc Hold) end.
    + destruct (put_task_fail_unchanged _ _ _ _ _ _ Hrun Hno) as [-> _]. done.
  - destruct (tasks s !! id) as [task|] eqn:Ht.
    + rewrite (delete_task_found _ _ _ Ht). simpl. by apply consistent_after_delete.
    + rewrite (delete_task_missing _ _ Ht). done.
Qed.



Lemma sample_store_consistent : consistent Sample.store.
Proof.
  split; [reflexivity|].
  intros uid u Hu tid. unfold Sample.store in *. simpl in *.
  assert (forall t, (<["t1" := Sample.t1]> (<["t2" := Sample.t2]> ∅) : gmap string Task.doc)
                      !! tid = Some t ->
                    (tid = "t1" /\ t = Sample.t1) \/ (tid = "t2" /\ t = Sample.t2)) as Ht.
  { intros t. rewrite lookup_insert. case_decide; [intros [= <-]; by left|].
    rewrite lookup_insert. case_decide; [intros [= <-]; by right|].
    by rewrite lookup_empty. }
  rewrite lookup_insert in Hu. case_decide as H1.
  - injection Hu as <-. subst uid. simpl. rewrite list_elem_of_singleton. split.
    + intros ->. exists Sample.t1. by split.
    + intros (t & Hl & Ha & Hc). destruct (Ht t Hl) as [[-> _] | [_ ->]]; [done|].
      discriminate.
  - rewrite lookup_insert in Hu. case_decide as H2; [|by rewrite lookup_empty in Hu].
    injection Hu as <-. subst uid. simpl. split.
    + intros Hin. inversion Hin.
    + intros (t & Hl & Ha & Hc). destruct (Ht t Hl) as [[_ ->] | [_ ->]]; discriminate.
Qed.


(* ===================================================================== *)
(** ** The read routes                                                     *)
(* ===================================================================== *)

Section ReadRoutes.

Variable JSON_parse : string -> option Json.
Variable UserQ : QueryEngine User.doc.
Variable TaskQ : QueryEngine Task.doc.

(** The projection both spellings of the parameter give. *)
Definition select_of (q : Query) : Json :=
  json_or (parseJSONParam JSON_parse (q_select q))
          (parseJSONParam JSON_parse (q_filter q)).

(** The sort parameter is absent or parses to something truthy. *)
Definition sort_accepted (q : Query) : Prop :=
  Js.opt_truthy (q_sort q) = true ->
  json_truthy (parseJSONParam JSON_parse (q_sort q)) = true.

(** Neither select nor filter is given, or one of them parses to
    something truthy. *)
Definition select_accepted (q : Query) : Prop :=
  Js.opt_truthy (q_select q) || Js.opt_truthy (q_filter q) = true ->
  json_truthy (select_of q) = true.

Lemma list_query_ok q dflt s :
  sort_accepted q -> select_accepted q ->
  list_query JSON_parse q dflt s
  = (s, Ret (where_of JSON_parse q, bool_decide (q_count q = Some "true"),
             match int_truthy (int_param (q_limit q) dflt) with
             | Some n => limit_ n (base_query JSON_parse q)
             | None => base_query JSON_parse q
             end)).
Proof.
  intros Hsort Hsel. unfold sort_accepted, select_accepted, select_of in *.
  unfold list_query, base_query. fold (where_of JSON_parse q).
  unfold guard, hbind, hret, respond.
  rewrite where_of_truthy, andb_false_r.
  destruct (Js.opt_truthy (q_sort q)) eqn:Hs; simpl.
  - rewrite (Hsort eq_refl). simpl.
    destruct (Js.opt_truthy (q_select q) || Js.opt_truthy (q_filter q)) eqn:Hf; simpl.
    + rewrite (Hsel eq_refl). reflexivity.
    + reflexivity.
  - destruct (Js.opt_truthy (q_select q) || Js.opt_truthy (q_filter q)) eqn:Hf; simpl.
    + rewrite (Hsel eq_refl). reflexivity.
    + reflexivity.
Qed.

Lemma list_query_bad_sort q dflt s :
  Js.opt_truthy (q_sort q) = true ->
  json_truthy (parseJSONParam JSON_parse (q_sort q)) = false ->
  list_query JSON_parse q dflt s
  = (s, Respond (mkResponse 400 "Bad Request: invalid JSON in 'sort'" DList)).
Proof.
  intros Hs Hbad. unfold list_query. fold (where_of JSON_parse q).
  unfold guard, hbind, hret, respond.
  rewrite where_of_truthy, andb_false_r, Hs, Hbad. reflexivity.
Qed.

Lemma list_query_bad_select q dflt s :
  sort_accepted q ->
  Js.opt_truthy (q_select q) || Js.opt_truthy (q_filter q) = true ->
  json_truthy (select_of q) = false ->
  list_query JSON_parse q dflt s
  = (s, Respond (mkResponse 400 "Bad Request: invalid JSON in 'select/filter'" DList)).
Proof.
  intros Hsort Hf Hbad. unfold sort_accepted, select_of in *.
  unfold list_query. fold (where_of JSON_parse q).
  unfold guard, hbind, hret, respond.
  rewrite where_of_truthy, andb_false_r, Hf, Hbad.
  destruct (Js.opt_truthy (q_sort q)) eqn:Hs; simpl; [|reflexivity].
  rewrite (Hsort eq_refl). reflexivity.
Qed.

Lemma list_query_cases q dflt s :
  list_query JSON_parse q dflt s
  = (s, Respond (mkResponse 400 "Bad Request: invalid JSON in 'sort'" DList))
  \/ list_query JSON_parse q dflt s
     = (s, Respond (mkResponse 400 "Bad Request: invalid JSON in 'select/filter'" DList))
  \/ list_query JSON_parse q dflt s
     = (s, Ret (where_of JSON_parse q, bool_decide (q_count q = Some "true"),
                match int_truthy (int_param (q_limit q) dflt) with
                | Some n => limit_ n (base_query JSON_parse q)
                | None => base_query JSON_parse q
                end)).
Proof.
  unfold list_query, base_query. fold (where_of JSON_parse q).
  unfold guard, hbind, hret, respond.
  rewrite where_of_truthy, andb_false_r.
  destruct (Js.opt_truthy (q_sort q) && _); simpl; [by left|].
  destruct ((Js.opt_truthy (q_select q) || Js.opt_truthy (q_filter q)) && _);
    simpl; [right; by left|].
  right. by right.
Qed.

(** X1.  The four GET handlers answer without writing to the store. *)
Theorem reads_leave_store_unchanged (q : Query) (id : string) (s : Store) :
  (handle (get_users JSON_parse UserQ q) s).2 = s /\
  (handle (get_tasks JSON_parse TaskQ q) s).2 = s /\
  (handle (get_user JSON_parse UserQ id q) s).2 = s /\
  (handle (get_task JSON_parse TaskQ id q) s).2 = s.
Proof.
  split_and!.
  - unfold get_users, handle, hbind.
    destruct (list_query_run JSON_parse q None s) as [(msg & ->) | ->]; [done|].
    destruct (bool_decide _); simpl; [done|].
    unfold read. by destruct (exec _ _ _).
  - unfold get_tasks, handle, hbind.
    destruct (list_query_run JSON_parse q (Some 100) s) as [(msg & ->) | ->]; [done|].
    destruct (bool_decide _); simpl; [done|].
    unfold read. by destruct (exec _ _ _).
  - unfold get_user, Users.findById. run_handler.
    destruct (_ && _); simpl; [done|]. destruct (users s !! id); simpl; [|done].
    by destruct (if json_truthy _ then _ else _).
  - unfold get_task, Tasks.findById. run_handler.
    destruct (_ && _); simpl; [done|]. destruct (tasks s !! id); simpl; [|done].
    by destruct (if json_truthy _ then _ else _).
Qed.

(** A query with its [where] parameter replaced. *)
Definition with_where (w : option string) (q : Query) : Query :=
  mkQuery w (q_sort q) (q_select q) (q_filter q) (q_skip q) (q_limit q) (q_count q).

(** X2.  The test on [where] comes after the fallback to the empty filter, so
    it never fires: a [where] that is not JSON (or is JSON for a falsy
    value) is served exactly as if no [where] had been given, and no
    answer of the list routes is the invalid-where one. *)
Theorem malformed_where_is_no_filter (q : Query) (s : Store) :
  json_truthy (parseJSONParam JSON_parse (q_where q)) = false ->
  handle (get_users JSON_parse UserQ q) s
  = handle (get_users JSON_parse UserQ (with_where None q)) s
  /\ handle (get_tasks JSON_parse TaskQ q) s
     = handle (get_tasks JSON_parse TaskQ (with_where None q)) s
  /\ message (handle (get_users JSON_parse UserQ q) s).1
     <> "Bad Request: invalid JSON in 'where'"
  /\ message (handle (get_tasks JSON_parse TaskQ q) s).1
     <> "Bad Request: invalid JSON in 'where'".
Proof.
  intros Hbad.
  assert (forall dflt, list_query JSON_parse q dflt s
                       = list_query JSON_parse (with_where None q) dflt s) as Heq.
  { intros dflt. unfold list_query, with_where, json_or. simpl.
    rewrite Hbad. simpl. rewrite andb_false_r. reflexivity. }
  split_and!.
  - unfold get_users, handle, hbind. by rewrite Heq.
  - unfold get_tasks, handle, hbind. by rewrite Heq.
  - unfold get_users, handle, hbind.
    destruct (list_query_cases q None s) as [-> | [-> | ->]]; [done | done |].
    destruct (bool_decide _); simpl; [done|].
    unfold read. by destruct (exec _ _ _).
  - unfold get_tasks, handle, hbind.
    destruct (list_query_cases q (Some 100) s) as [-> | [-> | ->]]; [done | done |].
    destruct (bool_decide _); simpl; [done|].
    unfold read. by destruct (exec _ _ _).
Qed.

End ReadRoutes.

Lemma malformed_where_is_no_filter_witness :
  let q := mkQuery (Some "notjson") None None None None None None in
  handle (get_users Sample.JSON_parse (Sample.engine _) q) Sample.store
  = handle (get_users Sample.JSON_parse (Sample.engine _) Sample.no_query) Sample.store
  /\ status (handle (get_users Sample.JSON_parse (Sample.engine _) q) Sample.store).1 = 200.
Proof.
  intros q.
  destruct (malformed_where_is_no_filter Sample.JSON_parse (Sample.engine _)
              (Sample.engine _) q Sample.store eq_refl) as (Hu & _).
  split; [exact Hu | rewrite Hu; reflexivity].
Defined.

Section ListParameters.

Variable JSON_parse : string -> option Json.
Variable UserQ : QueryEngine User.doc.
Variable TaskQ : QueryEngine Task.doc.

(** X3.  A [sort] that is given but does not parse to something truthy
    (malformed JSON, or JSON such as null or 0) is refused by both list
    routes with the invalid-sort answer, whatever the other parameters
    are; when the sort is fine, a select/filter pair of which at least one
    is given and neither yields a truthy value is refused with the
    invalid-select answer.  The store is not touched. *)
Theorem list_routes_refuse_bad_sort_and_select (q : Query) (s : Store) :
  (Js.opt_truthy (q_sort q) = true ->
   json_truthy (parseJSONParam JSON_parse (q_sort q)) = false ->
   handle (get_users JSON_parse UserQ q) s
   = (mkResponse 400 "Bad Request: invalid JSON in 'sort'" DList, s)
   /\ handle (get_tasks JSON_parse TaskQ q) s
      = (mkResponse 400 "Bad Request: invalid JSON in 'sort'" DList, s)) /\
  (sort_accepted JSON_parse q ->
   Js.opt_truthy (q_select q) || Js.opt_truthy (q_filter q) = true ->
   json_truthy (select_of JSON_parse q) = false ->
   handle (get_users JSON_parse UserQ q) s
   = (mkResponse 400 "Bad Request: invalid JSON in 'select/filter'" DList, s)
   /\ handle (get_tasks JSON_parse TaskQ q) s
      = (mkResponse 400 "Bad Request: invalid JSON in 'select/filter'" DList, s)).
Proof.
  split.
  - intros Hs Hbad. unfold get_users, get_tasks, handle, hbind.
    by rewrite !list_query_bad_sort.
  - intros Hsort Hf Hbad. unfold get_users, get_tasks, handle, hbind.
    by rewrite !list_query_bad_select.
Qed.

(** X4.  With count=true and parameters that are accepted, both list routes
    answer the number of documents the filter matches: sort, skip, limit
    and projection play no part, and the default limit of the task route
    does not cap the count. *)
Theorem count_ignores_paging (q : Query) (s : Store) :
  q_count q = Some "true" ->
  sort_accepted JSON_parse q ->
  select_accepted JSON_parse q ->
  handle (get_users JSON_parse UserQ q) s
  = (mkResponse 200 "OK"
       (DCount (length (matching UserQ (where_of JSON_parse q) (users s)))), s)
  /\ handle (get_tasks JSON_parse TaskQ q) s
     = (mkResponse 200 "OK"
          (DCount (length (matching TaskQ (where_of JSON_parse q) (tasks s)))), s).
Proof.
  intros Hc Hsort Hsel. unfold get_users, get_tasks, handle, hbind.
  rewrite !list_query_ok by done.
  rewrite bool_decide_eq_true_2 by done. done.
Qed.

(** X5.  A limit parameter that [parseInt] reads as 0 or cannot read at all
    is not applied, and it also displaces the default: GET /tasks then
    returns everything the query yields, with no cap at 100. *)
Theorem zero_limit_lifts_task_cap (q : Query) (s : Store) (l : string) :
  q_limit q = Some l -> l <> "" ->
  Js.parseInt l = Some 0 \/ Js.parseInt l = None ->
  q_count q <> Some "true" ->
  forall r s',
    handle (get_tasks JSON_parse TaskQ q) s = (r, s') -> status r = 200 ->
    exists all, exec TaskQ (base_query JSON_parse q) (tasks s) = Some all
                /\ data r = DTasks all.
Proof.
  intros Hl Hne Hp Hc r s'. unfold get_tasks, handle, hbind.
  destruct (list_query_cases JSON_parse q (Some 100) s) as [-> | [-> | ->]].
  { intros [= <- <-]. simpl. discriminate. }
  { intros [= <- <-]. simpl. discriminate. }
  rewrite bool_decide_eq_false_2 by done.
  assert (int_truthy (int_param (q_limit q) (Some 100)) = None) as ->.
  { unfold int_param. rewrite Hl. simpl.
    assert (Js.str_truthy l = true) as -> by (by apply str_truthy_iff).
    by destruct Hp as [-> | ->]. }
  unfold read. simpl.
  destruct (exec TaskQ (base_query JSON_parse q) (tasks s)) as [all|]; simpl.
  2:{ intros [= <- <-]. simpl. discriminate. }
  intros [= <- <-] _. by exists all.
Qed.

End ListParameters.

Lemma list_routes_refuse_bad_sort_and_select_witness :
  handle (get_tasks Sample.JSON_parse (Sample.engine _)
            (mkQuery None (Some "name") None None None None None)) Sample.store
  = (mkResponse 400 "Bad Request: invalid JSON in 'sort'" DList, Sample.store)
  /\ handle (get_users Sample.JSON_parse (Sample.engine _)
               (mkQuery None (Some "{}") None (Some "x") None None None)) Sample.store
     = (mkResponse 400 "Bad Request: invalid JSON in 'select/filter'" DList, Sample.store).
Proof.
  split.
  - apply (list_routes_refuse_bad_sort_and_select Sample.JSON_parse
             (Sample.engine _) (Sample.engine _)
             (mkQuery None (Some "name") None None None None None) Sample.store);
      reflexivity.
  - apply (list_routes_refuse_bad_sort_and_select Sample.JSON_parse
             (Sample.engine _) (Sample.engine _)
             (mkQuery None (Some "{}") None (Some "x") None None None) Sample.store);
      [intros _ | ..]; reflexivity.
Defined.

Lemma count_ignores_paging_witness :
  handle (get_tasks Sample.JSON_parse (Sample.engine _)
            (mkQuery None None None None (Some "7") (Some "5") (Some "true")))
         crowded_store
  = (mkResponse 200 "OK" (DCount 101), crowded_store).
Proof.
  destruct (count_ignores_paging Sample.JSON_parse (Sample.engine _) (Sample.engine _)
              (mkQuery None None None None (Some "7") (Some "5") (Some "true"))
              crowded_store eq_refl) as [_ Ht].
  - intros H; discriminate H.
  - intros H; discriminate H.
  - rewrite Ht; f_equal; f_equal; f_equal; vm_compute; reflexivity.
Defined.

Lemma zero_limit_lifts_task_cap_witness :
  exists all,
    data (handle (get_tasks Sample.JSON_parse (Sample.engine _)
                    (mkQuery None None None None None (Some "0") None))
                 crowded_store).1 = DTasks all
    /\ length all = 101%nat.
Proof.
  destruct (zero_limit_lifts_task_cap Sample.JSON_parse (Sample.engine _)
              (mkQuery None None None None None (Some "0") None)
              crowded_store "0" eq_refl ltac:(discriminate) (or_introl eq_refl)
              ltac:(discriminate) _ _ (surjective_pairing _) eq_refl)
    as (all & Hall & Hdata).
  exists all. split; [exact Hdata|].
  vm_compute in Hall. injection Hall as <-. vm_compute. reflexivity.
Defined.

(* ===================================================================== *)
(** ** Writes followed by reads, refused writes                            *)
(* ===================================================================== *)

Lemma get_task_found Jp TQ id q s t :
  Js.opt_truthy (q_select q) = false -> Js.opt_truthy (q_filter q) = false ->
  tasks s !! id = Some t ->
  handle (get_task Jp TQ id q) s = (mkResponse 200 "OK" (DTask id t), s).
Proof.
  intros Hs Hf Ht. unfold get_task, Tasks.findById, parseJSONParam. run_handler.
  rewrite Hs, Hf. simpl. rewrite Ht. reflexivity.
Qed.

Lemma get_user_found Jp UQ id q s u :
  Js.opt_truthy (q_select q) = false -> Js.opt_truthy (q_filter q) = false ->
  users s !! id = Some u ->
  handle (get_user Jp UQ id q) s = (mkResponse 200 "OK" (DUser id u), s).
Proof.
  intros Hs Hf Hu. unfold get_user, Users.findById, parseJSONParam. run_handler.
  rewrite Hs, Hf. simpl. rewrite Hu. reflexivity.
Qed.

(** X6.  The document a successful POST or PUT answers with is the document a
    following GET by id (without projection) answers with, for tasks and
    for users. *)
Theorem write_then_read_by_id Dp Jp UQ TQ (q : Query) :
  Js.opt_truthy (q_select q) = false -> Js.opt_truthy (q_filter q) = false ->
  (forall newId body s r s',
      handle (post_task Dp newId body) s = (r, s') -> status r = 201 ->
      exists t, data r = DTask newId t
                /\ handle (get_task Jp TQ newId q) s' = (mkResponse 200 "OK" (DTask newId t), s')) /\
  (forall id body s r s',
      handle (put_task Dp id body) s = (r, s') -> status r = 200 ->
      exists t, data r = DTask id t
                /\ handle (get_task Jp TQ id q) s' = (mkResponse 200 "OK" (DTask id t), s')) /\
  (forall newId now body s r s',
      handle (post_user newId now body) s = (r, s') -> status r = 201 ->
      exists u, data r = DUser newId u
                /\ handle (get_user Jp UQ newId q) s' = (mkResponse 200 "OK" (DUser newId u), s')) /\
  (forall id body s r s',
      handle (put_user Dp id body) s = (r, s') -> status r = 200 ->
      exists u, data r = DUser id u
                /\ handle (get_user Jp UQ id q) s' = (mkResponse 200 "OK" (DUser id u), s')).
Proof.
  intros Hs Hf. split_and!.
  - intros newId body s r s' Hrun Hok.
    destruct (post_task_ok_inv _ _ _ _ _ _ Hrun Hok)
      as (dl & aun & _ & _ & _ & _ & _ & Hr & Hst).
    eexists. split; [by rewrite Hr|]. apply get_task_found; try done.
    rewrite Hst. simpl. apply lookup_insert_eq.
  - intros id body s r s' Hrun Hok.
    destruct (put_task_ok_inv _ _ _ _ _ _ Hrun Hok)
      as (old & dl & au & aun & _ & _ & _ & _ & _ & Hr & Hst).
    eexists. split; [by rewrite Hr|]. apply get_task_found; try done.
    rewrite Hst. simpl. apply lookup_insert_eq.
  - intros newId now body s r s' Hrun Hok.
    destruct (post_user_ok_inv _ _ _ _ _ _ Hrun Hok)
      as (n & e & _ & _ & _ & _ & _ & _ & Hr & Hst).
    eexists. split; [by rewrite Hr|]. apply get_user_found; try done.
    rewrite Hst. simpl. apply lookup_insert_eq.
  - intros id body s r s' Hrun Hok.
    destruct (put_user_ok_inv _ _ _ _ _ _ Hrun Hok)
      as (user & n & e & dc & _ & _ & _ & _ & _ & _ & _ & Hr & Hst).
    eexists. split; [by rewrite Hr|]. apply get_user_found; try done.
    rewrite Hst. simpl. apply lookup_insert_eq.
Qed.

Lemma write_then_read_by_id_witness :
  exists t,
    handle (get_task Sample.JSON_parse (Sample.engine _) "t3" Sample.no_query)
           (handle (post_task Sample.Date_parse "t3"
                      (TaskBody.mk (Some "plan") (Js.Str "2024-01-01") None
                                   Js.Undefined (Some "u2") None)) Sample.store).2
    = (mkResponse 200 "OK" (DTask "t3" t),
       (handle (post_task Sample.Date_parse "t3"
                  (TaskBody.mk (Some "plan") (Js.Str "2024-01-01") None
                               Js.Undefined (Some "u2") None)) Sample.store).2)
    /\ Task.assignedUserName t = "Bob".
Proof.
  destruct (write_then_read_by_id Sample.Date_parse Sample.JSON_parse
              (Sample.engine _) (Sample.engine _) Sample.no_query eq_refl eq_refl)
    as (Hpost & _).
  destruct (Hpost "t3"
              (TaskBody.mk (Some "plan") (Js.Str "2024-01-01") None
                           Js.Undefined (Some "u2") None)
              Sample.store _ _ (surjective_pairing _) eq_refl)
    as (t & Hdata & Hget).
  exists t. split; [exact Hget|].
  vm_compute in Hdata. by injection Hdata as <-.
Defined.



(** A body with its [assignedUserName] replaced. *)
Definition with_assignedUserName (n : option string) (b : TaskBody.t) : TaskBody.t :=
  TaskBody.mk (TaskBody.name b) (TaskBody.deadline b) (TaskBody.description b)
              (TaskBody.completed b) (TaskBody.assignedUser b) n.

(** X8.  The [assignedUserName] a client sends is never used: POST and PUT
    answer and write the same whatever it is. *)
Theorem client_assignedUserName_ignored Dp (n : option string) (id : string)
        (body : TaskBody.t) (s : Store) :
  handle (post_task Dp id (with_assignedUserName n body)) s
  = handle (post_task Dp id body) s
  /\ handle (put_task Dp id (with_assignedUserName n body)) s
     = handle (put_task Dp id body) s.
Proof. destruct body. split; reflexivity. Qed.

(* ===================================================================== *)
(** ** Task DELETE and the assignment transitions of Task PUT              *)
(* ===================================================================== *)

(** X9.  DELETE /tasks/:id of a stored task answers 200, removes that task and
    no other, takes the id out of the assignee's pendingTasks and leaves
    every other user as it was; the same request again answers 404 and
    changes nothing. *)
Theorem delete_task_then_gone (id : string) (s : Store) (task : Task.doc) :
  tasks s !! id = Some task ->
  exists s',
    handle (delete_task id) s = (mkResponse 200 "Task deleted" DObject, s')
    /\ tasks s' = delete id (tasks s)
    /\ (forall u, users s !! Task.assignedUser task = Some u ->
          Task.assignedUser task <> "" ->
          exists u', users s' !! Task.assignedUser task = Some u'
                     /\ (id ∉ User.pendingTasks u')
                     /\ forall k, k <> id ->
                          (k ∈ User.pendingTasks u' <-> k ∈ User.pendingTasks u))
    /\ (forall uid, uid <> Task.assignedUser task -> users s' !! uid = users s !! uid)
    /\ handle (delete_task id) s' = (mkResponse 404 "Task not found" DObject, s').
Proof.
  intros Ht. eexists. split; [by apply delete_task_found|]. simpl. split_and!.
  - reflexivity.
  - intros u Hu Hne. apply str_truthy_iff in Hne. rewrite Hne.
    rewrite lookup_alter_eq, Hu. simpl. eexists. split; [done|]. simpl. split.
    + rewrite elem_of_pull. tauto.
    + intros k Hk. rewrite elem_of_pull. tauto.
  - intros uid Hne. destruct (Js.str_truthy _); [|done].
    by rewrite lookup_alter_ne.
  - apply delete_task_missing. simpl. apply lookup_delete_eq.
Qed.

Lemma delete_task_then_gone_witness :
  exists s',
    handle (delete_task "t1") Sample.store
    = (mkResponse 200 "Task deleted" DObject, s')
    /\ (User.pendingTasks <$> users s' !! "u1") = Some []
    /\ handle (delete_task "t1") s' = (mkResponse 404 "Task not found" DObject, s').
Proof.
  destruct (delete_task_then_gone "t1" Sample.store Sample.t1 eq_refl)
    as (s' & Hrun & _ & _ & _ & Hagain).
  exists s'. split; [exact Hrun|]. split; [|exact Hagain].
  assert (s' = (handle (delete_task "t1") Sample.store).2) as -> by (by rewrite Hrun).
  vm_compute. reflexivity.
Defined.

(** X10.  Reassigning an open task from one user to another through PUT: the
    task now names the new user, its id is no longer in the old user's
    pendingTasks and is in the new user's. *)
Theorem put_task_reassign_moves_id Dp id body s old dl u1 u2 U1 U2 :
  tasks s !! id = Some old ->
  Task.assignedUser old = u1 -> u1 <> "" ->
  TaskBody.assignedUser body = Some u2 -> u2 <> "" -> u2 <> u1 ->
  users s !! u1 = Some U1 -> users s !! u2 = Some U2 ->
  Js.opt_truthy (TaskBody.name body) = true ->
  Js.truthy (TaskBody.deadline body) = true ->
  deadline_date Dp (TaskBody.deadline body) = Some dl ->
  parseBoolean (TaskBody.completed body) (Task.completed old) = false ->
  exists r s' t U1' U2',
    handle (put_task Dp id body) s = (r, s') /\ status r = 200
    /\ tasks s' !! id = Some t
    /\ Task.assignedUser t = u2 /\ Task.assignedUserName t = User.name U2
    /\ users s' !! u1 = Some U1' /\ (id ∉ User.pendingTasks U1')
    /\ users s' !! u2 = Some U2' /\ id ∈ User.pendingTasks U2'.
Proof.
  intros Hold Hu1 Hne1 Hb Hne2 Hne Hl1 Hl2 Hn Hd Hdl Hc.
  assert (requested_assignee body old = u2) as Hreq
      by (unfold requested_assignee; by rewrite Hb).
  assert (status (handle (put_task Dp id body) s).1 = 200) as Hok.
  { apply (put_task_ok Dp id body s old dl); try done. rewrite Hreq. eauto. }
  destruct (handle (put_task Dp id body) s) as [r s'] eqn:Hrun. simpl in Hok.
  destruct (put_task_ok_inv _ _ _ _ _ _ Hrun Hok)
    as (old' & dl' & au & aun & Hold' & _ & _ & _ & Hres & Hr & Hs).
  rewrite Hold in Hold'. injection Hold' as <-.
  rewrite Hreq in Hres.
  destruct Hres as [(Hf & _) | (_ & -> & (u & Hu & ->))].
  { apply str_truthy_iff in Hne2. congruence. }
  rewrite Hl2 in Hu. injection Hu as <-.
  rewrite Hc, Hu1 in Hs.
  exists r, s'. eexists.
  exists (Users.set_pendingTasks (pull id) U1),
         (Users.set_pendingTasks (addToSet id) U2).
  split; [done|]. split; [done|]. rewrite Hs. simpl. split_and!.
  - apply lookup_insert_eq.
  - done.
  - done.
  - rewrite lookup_add_users, lookup_remove_users, Hl1. simpl.
    rewrite (bool_decide_eq_false_2 (u1 = u2)) by congruence.
    rewrite (bool_decide_eq_true_2 (u1 = u1)) by done.
    apply str_truthy_iff in Hne1. rewrite Hne1. unfold shouldRemove.
    rewrite (bool_decide_eq_false_2 (u1 = u2)) by congruence. done.
  - simpl. rewrite elem_of_pull. tauto.
  - rewrite lookup_add_users, lookup_remove_users, Hl2. simpl.
    rewrite (bool_decide_eq_true_2 (u2 = u2)) by done.
    rewrite (bool_decide_eq_false_2 (u2 = u1)) by done.
    apply str_truthy_iff in Hne2. rewrite Hne2. done.
  - simpl. rewrite elem_of_addToSet. by left.
Qed.

Lemma put_task_reassign_moves_id_witness :
  exists r s' t U1' U2',
    handle (put_task Sample.Date_parse "t1"
              (TaskBody.mk (Some "write") (Js.Str "5000") None Js.Undefined
                           (Some "u2") None)) Sample.store = (r, s')
    /\ status r = 200
    /\ tasks s' !! "t1" = Some t
    /\ Task.assignedUser t = "u2" /\ Task.assignedUserName t = "Bob"
    /\ users s' !! "u1" = Some U1' /\ ("t1" ∉ User.pendingTasks U1')
    /\ users s' !! "u2" = Some U2' /\ "t1" ∈ User.pendingTasks U2'.
Proof.
  apply (put_task_reassign_moves_id Sample.Date_parse "t1" _ Sample.store
           Sample.t1 5000 "u1" "u2" Sample.ann Sample.bob);
    try reflexivity; discriminate.
Defined.

(** X11.  Completing an open, assigned task through PUT (no assignedUser in
    the body): the task keeps its assignee, and its id leaves the
    assignee's pendingTasks. *)
Theorem put_task_complete_keeps_assignee Dp id body s old dl u1 U1 :
  tasks s !! id = Some old ->
  Task.assignedUser old = u1 -> u1 <> "" ->
  TaskBody.assignedUser body = None ->
  users s !! u1 = Some U1 ->
  Js.opt_truthy (TaskBody.name body) = true ->
  Js.truthy (TaskBody.deadline body) = true ->
  deadline_date Dp (TaskBody.deadline body) = Some dl ->
  parseBoolean (TaskBody.completed body) (Task.completed old) = true ->
  exists r s' t U1',
    handle (put_task Dp id body) s = (r, s') /\ status r = 200
    /\ tasks s' !! id = Some t
    /\ Task.completed t = true
    /\ Task.assignedUser t = u1 /\ Task.assignedUserName t = User.name U1
    /\ users s' !! u1 = Some U1' /\ (id ∉ User.pendingTasks U1').
Proof.
  intros Hold Hu1 Hne1 Hb Hl1 Hn Hd Hdl Hc.
  assert (requested_assignee body old = u1) as Hreq
      by (unfold requested_assignee; by rewrite Hb).
  assert (status (handle (put_task Dp id body) s).1 = 200) as Hok.
  { apply (put_task_ok Dp id body s old dl); try done. rewrite Hreq. eauto. }
  destruct (handle (put_task Dp id body) s) as [r s'] eqn:Hrun. simpl in Hok.
  destruct (put_task_ok_inv _ _ _ _ _ _ Hrun Hok)
    as (old' & dl' & au & aun & Hold' & _ & _ & _ & Hres & Hr & Hs).
  rewrite Hold in Hold'. injection Hold' as <-.
  rewrite Hreq in Hres.
  destruct Hres as [(Hf & _) | (_ & -> & (u & Hu & ->))].
  { apply str_truthy_iff in Hne1. congruence. }
  rewrite Hl1 in Hu. injection Hu as <-.
  rewrite Hc, Hu1 in Hs.
  exists r, s'. eexists. exists (Users.set_pendingTasks (pull id) U1).
  split; [done|]. split; [done|]. rewrite Hs. simpl. split_and!.
  - apply lookup_insert_eq.
  - done.
  - done.
  - done.
  - rewrite lookup_add_users, lookup_remove_users, Hl1. simpl.
    rewrite (bool_decide_eq_true_2 (u1 = u1)) by done.
    apply str_truthy_iff in Hne1. rewrite Hne1. unfold shouldRemove.
    simpl. rewrite !orb_true_r. done.
  - simpl. rewrite elem_of_pull. tauto.
Qed.

Lemma put_task_complete_keeps_assignee_witness :
  exists r s' t U1',
    handle (put_task Sample.Date_parse "t1"
              (TaskBody.mk (Some "write") (Js.Str "5000") None (Js.Str "TRUE")
                           None None)) Sample.store = (r, s')
    /\ status r = 200
    /\ tasks s' !! "t1" = Some t
    /\ Task.completed t = true
    /\ Task.assignedUser t = "u1" /\ Task.assignedUserName t = "Ann"
    /\ users s' !! "u1" = Some U1' /\ ("t1" ∉ User.pendingTasks U1').
Proof.
  apply (put_task_complete_keeps_assignee Sample.Date_parse "t1" _ Sample.store
           Sample.t1 5000 "u1" Sample.ann);
    try reflexivity; discriminate.
Defined.

(* ===================================================================== *)
(** ** Order of the checks, defaults, and what a refusal leaves behind     *)
(* ===================================================================== *)


(** X13.  What a successful PUT /tasks/:id takes from the stored task when the
    body leaves a field out: completed stays as it was when the body has
    none (or null), the assignee stays when the body has no assignedUser,
    and an assignedUser that is the empty string clears the assignment. *)
Theorem put_task_defaults Dp id body s r s' old :
  tasks s !! id = Some old ->
  handle (put_task Dp id body) s = (r, s') ->
  status r = 200 ->
  exists new,
    tasks s' !! id = Some new /\
    (TaskBody.completed body = Js.Undefined \/ TaskBody.completed body = Js.Null ->
     Task.completed new = Task.completed old) /\
    (TaskBody.assignedUser body = None ->
     Task.assignedUser new = Task.assignedUser old) /\
    (TaskBody.assignedUser body = Some "" ->
     Task.assignedUser new = "" /\ Task.assignedUserName new = "unassigned").
Proof.
  intros Hold Hrun Hok.
  destruct (put_task_ok_inv _ _ _ _ _ _ Hrun Hok)
    as (old' & dl & au & aun & Hold' & _ & _ & _ & Hres & Hr & Hs).
  rewrite Hold in Hold'. injection Hold' as <-.
  eexists. split; [rewrite Hs; simpl; apply lookup_insert_eq|]. simpl. split_and!.
  - intros [-> | ->]; reflexivity.
  - intros Hb. unfold requested_assignee in Hres. rewrite Hb in Hres.
    destruct Hres as [(Hf & -> & _) | (_ & -> & _)]; [|done].
    destruct (Task.assignedUser old); [done | discriminate].
  - intros Hb. unfold requested_assignee in Hres. rewrite Hb in Hres.
    destruct Hres as [(_ & -> & ->) | (Hf & _)]; [done | discriminate].
Qed.

Lemma put_task_defaults_witness :
  exists new,
    tasks (handle (put_task Sample.Date_parse "t2"
                     (TaskBody.mk (Some "read") (Js.Str "7000") None Js.Undefined
                                  None None)) Sample.store).2 !! "t2" = Some new
    /\ Task.completed new = true /\ Task.assignedUser new = "u1".
Proof.
  destruct (put_task_defaults Sample.Date_parse "t2"
              (TaskBody.mk (Some "read") (Js.Str "7000") None Js.Undefined None None)
              Sample.store _ _ Sample.t2 eq_refl (surjective_pairing _) eq_refl)
    as (new & Hnew & Hc & Ha & _).
  exists new. split; [exact Hnew|]. split.
  - rewrite Hc; [reflexivity | by left].
  - rewrite Ha; reflexivity.
Defined.




(* ===================================================================== *)
(** ** What the user routes leave alone                                    *)
(* ===================================================================== *)

(** X15.  POST /users never touches a task, even when the body lists
    pendingTasks, and neither POST /users nor PUT /users/:id touches
    another user's record. *)
Theorem user_writes_frame Dp (s : Store) :
  (forall newId now body r s',
      handle (post_user newId now body) s = (r, s') ->
      tasks s' = tasks s
      /\ forall uid, uid <> newId -> users s' !! uid = users s !! uid) /\
  (forall id body r s',
      handle (put_user Dp id body) s = (r, s') ->
      forall uid, uid <> id -> users s' !! uid = users s !! uid).
Proof.
  split.
  - intros newId now body r s' Hrun.
    destruct (decide (status r = 201)) as [Hok | Hno].
    + destruct (post_user_ok_inv _ _ _ _ _ _ Hrun Hok)
        as (n & e & _ & _ & _ & _ & _ & _ & _ & ->).
      simpl. split; [done|]. intros uid Hne. by rewrite lookup_insert_ne.
    + by rewrite (post_user_fail_unchanged _ _ _ _ _ _ Hrun Hno).
  - intros id body r s' Hrun uid Hne.
    destruct (decide (status r = 200)) as [Hok | Hno].
    + destruct (put_user_ok_inv _ _ _ _ _ _ Hrun Hok)
        as (user & n & e & dc & _ & _ & _ & _ & _ & _ & _ & _ & ->).
      simpl. by rewrite lookup_insert_ne.
    + by rewrite (put_user_fail_unchanged _ _ _ _ _ _ Hrun Hno).
Qed.

(** X16.  PUT /users/:id takes over a task that is open and listed by another
    user, by adding its id to pendingTasks: the task then names this
    user, while the other user's pendingTasks still lists it. *)
Theorem put_user_keeps_previous_assignee_list Dp id body s r s' k t v V old :
  handle (put_user Dp id body) s = (r, s') ->
  status r = 200 ->
  users s !! id = Some old ->
  tasks s !! k = Some t ->
  Task.assignedUser t = v -> v <> id ->
  users s !! v = Some V -> k ∈ User.pendingTasks V ->
  k ∈ normalize_pending (UserBody.pendingTasks body) ->
  k ∉ User.pendingTasks old ->
  exists t' V',
    tasks s' !! k = Some t' /\ Task.assignedUser t' = id /\ Task.completed t' = false
    /\ users s' !! v = Some V' /\ k ∈ User.pendingTasks V'.
Proof.
  intros Hrun Hok Hold Ht Hv Hne HV Hin Hnew Hnot.
  destruct (put_user_ok_inv _ _ _ _ _ _ Hrun Hok)
    as (user & n & e & dc & Hu & _ & _ & _ & _ & _ & _ & _ & ->).
  rewrite Hold in Hu. injection Hu as <-.
  simpl. rewrite put_user_tasks_lookup, Ht. simpl.
  unfold reconciled. rewrite bool_decide_eq_true_2 by done.
  eexists. exists V. split; [done|]. simpl. split_and!; try done.
  by rewrite lookup_insert_ne.
Qed.

Lemma put_user_keeps_previous_assignee_list_witness :
  exists t' V',
    tasks (handle (put_user Sample.Date_parse "u2"
                     (UserBody.mk (Some "Bob") (Some "bob@x.org") (PArray ["t1"])
                                  Js.Undefined)) Sample.store).2 !! "t1" = Some t'
    /\ Task.assignedUser t' = "u2" /\ Task.completed t' = false
    /\ users (handle (put_user Sample.Date_parse "u2"
                        (UserBody.mk (Some "Bob") (Some "bob@x.org") (PArray ["t1"])
                                     Js.Undefined)) Sample.store).2 !! "u1" = Some V'
    /\ "t1" ∈ User.pendingTasks V'.
Proof.
  apply (put_user_keeps_previous_assignee_list Sample.Date_parse "u2"
           (UserBody.mk (Some "Bob") (Some "bob@x.org") (PArray ["t1"]) Js.Undefined)
           Sample.store _ _ "t1" Sample.t1 "u1" Sample.ann Sample.bob
           (surjective_pairing _));
    try reflexivity; try discriminate.
  - simpl. by left.
  - simpl. by left.
  - simpl. intros H. inversion H.
Defined.

(* ===================================================================== *)
(** ** assignedUserName against the users                                  *)
(* ===================================================================== *)

(** A task's denormalised name agrees with the users collection [U]. *)
Definition task_synced (U : gmap string User.doc) (t : Task.doc) : Prop :=
  (Task.assignedUser t = "" /\ Task.assignedUserName t = "unassigned")
  \/ (Task.assignedUser t <> ""
      /\ exists u, U !! Task.assignedUser t = Some u
                   /\ Task.assignedUserName t = User.name u).

Definition names_synced (s : Store) : Prop :=
  forall k t, tasks s !! k = Some t -> task_synced (users s) t.

Lemma task_synced_same_names (U U' : gmap string User.doc) (t : Task.doc) :
  (forall uid, User.name <$> U' !! uid = User.name <$> U !! uid) ->
  task_synced U t -> task_synced U' t.
Proof.
  intros Hn [H | (Hne & u & Hu & Ht)]; [by left | right].
  split; [done|]. specialize (Hn (Task.assignedUser t)). rewrite Hu in Hn.
  destruct (U' !! Task.assignedUser t) as [u'|]; [|done].
  exists u'. split; [done|]. simpl in Hn. congruence.
Qed.

Lemma names_after_add_remove o a oc c id U uid :
  User.name <$> add_users a c id (remove_users o a oc c id U) !! uid
  = User.name <$> U !! uid.
Proof.
  rewrite lookup_add_users, lookup_remove_users.
  destruct (U !! uid) as [u|]; [|done]. simpl.
  by destruct (_ && _ && _), (_ && _ && _).
Qed.

Lemma names_synced_after_write s id task U' :
  names_synced s ->
  (forall uid, User.name <$> U' !! uid = User.name <$> users s !! uid) ->
  task_synced (users s) task ->
  names_synced (mkStore U' (<[id := task]> (tasks s))).
Proof.
  intros Hs Hn Ht k t. simpl. rewrite lookup_insert. case_decide.
  - intros [= <-]. by eapply task_synced_same_names.
  - intros Hk. eapply task_synced_same_names; [done|]. by eapply Hs.
Qed.

Lemma serve_task_names_synced Dp rq s :
  names_synced s -> names_synced (serve_task Dp rq s).2.
Proof.
  intros Hc. destruct rq as [newId body | id body | id]; simpl.
  - destruct (handle (post_task Dp newId body) s) as [r s'] eqn:Hrun. simpl.
    destruct (decide (status r = 201)) as [Hok | Hno].
    + destruct (post_task_ok_inv _ _ _ _ _ _ Hrun Hok)
        as (dl & aun & _ & _ & _ & Hres & Hnew & _ & Hs).
      rewrite Hs. apply names_synced_after_write; [done | |].
      * intros uid. apply (names_after_add_remove "" _ false).
      * destruct Hres as [(Hf & ->) | (Hf & u & Hu & ->)].
        -- left. simpl. split; [|done].
           destruct (Js.or_str _ _); [done | discriminate].
        -- right. simpl. split; [by apply str_truthy_iff | eauto].
    + destruct (post_task_fail_unchanged _ _ _ _ _ _ Hrun Hno) as [-> _]. done.
  - destruct (handle (put_task Dp id body) s) as [r s'] eqn:Hrun. simpl.
    destruct (decide (status r = 200)) as [Hok | Hno].
    + destruct (put_task_ok_inv _ _ _ _ _ _ Hrun Hok)
        as (old & dl & au & aun & Hold & _ & _ & _ & Hres & _ & Hs).
      rewrite Hs. apply names_synced_after_write; [done | |].
      * intros uid. apply names_after_add_remove.
      * destruct Hres as [(Hf & -> & ->) | (Hf & -> & u & Hu & ->)].
        -- by left.
        -- right. simpl. split; [by apply str_truthy_iff | eauto].
    + destruct (put_task_fail_unchanged _ _ _ _ _ _ Hrun Hno) as [-> _]. done.
  - destruct (tasks s !! id) as [task|] eqn:Ht.
    + rewrite (delete_task_found _ _ _ Ht). simpl. intros k t. simpl.
      rewrite lookup_delete. case_decide; [done|]. intros Hk.
      eapply task_synced_same_names; [|by eapply Hc].
      intros uid. destruct (Js.str_truthy _); [|done].
      rewrite lookup_alter. case_decide as Hd; [|done].
      rewrite Hd. by destruct (users s !! uid).
    + rewrite (delete_task_missing _ _ Ht). done.
Qed.

(** X17.  Every route but PUT /users/:id keeps each task's assignedUserName in
    step with the users: if every stored task either is unassigned and
    named unassigned, or names an existing user and carries that user's
    name, then the same holds after any Task POST, PUT or DELETE, after a
    User POST, and after a User DELETE. *)
Theorem names_stay_synced Dp (s : Store) :
  names_synced s ->
  (forall rq, names_synced (serve_task Dp rq s).2) /\
  (forall newId now body, names_synced (handle (post_user newId now body) s).2) /\
  (forall id, names_synced (handle (delete_user id) s).2).
Proof.
  intros Hc. split_and!.
  - intros rq. by apply serve_task_names_synced.
  - intros newId now body.
    destruct (handle (post_user newId now body) s) as [r s'] eqn:Hrun. simpl.
    destruct (decide (status r = 201)) as [Hok | Hno].
    + destruct (post_user_ok_inv _ _ _ _ _ _ Hrun Hok)
        as (n & e & _ & _ & _ & _ & _ & Hnew & _ & ->).
      intros k t Hk. simpl in *.
      destruct (Hc k t Hk) as [H | (Hne & u & Hu & Ht)]; [by left | right].
      split; [done|]. exists u. split; [|done].
      rewrite lookup_insert_ne; [done|]. congruence.
    + by rewrite (post_user_fail_unchanged _ _ _ _ _ _ Hrun Hno).
  - intros id. destruct (users s !! id) as [user|] eqn:Hu.
    + rewrite (delete_user_found _ _ _ Hu). intros k t'. simpl.
      rewrite map_lookup_imap. destruct (tasks s !! k) as [t|] eqn:Hk; [|done].
      simpl. case_bool_decide as Hd.
      * intros [= <-]. by left.
      * intros [= <-].
        destruct (Hc k t Hk) as [H | (Hne & u & Hu' & Ht)]; [by left | right].
        split; [done|]. exists u. split; [|done].
        by rewrite lookup_delete_ne.
    + by rewrite (delete_user_missing _ _ Hu).
Qed.

Lemma sample_store_names_synced : names_synced Sample.store.
Proof.
  intros k t. unfold Sample.store. simpl.
  rewrite lookup_insert. case_decide.
  { intros [= <-]. right. split; [discriminate|]. by exists Sample.ann. }
  rewrite lookup_insert. case_decide.
  { intros [= <-]. right. split; [discriminate|]. by exists Sample.ann. }
  by rewrite lookup_empty.
Qed.

Lemma names_stay_synced_witness :
  task_synced
    (users (serve_task Sample.Date_parse
              (PutTask "t1" (TaskBody.mk (Some "write") (Js.Str "5000") None
                                         Js.Undefined (Some "u2") (Some "Zed")))
              Sample.store).2)
    (Task.mk "write" "" 5000 false "u2" "Bob").
Proof.
  destruct (names_stay_synced Sample.Date_parse Sample.store
              sample_store_names_synced) as (Htask & _).
  apply (Htask (PutTask "t1" (TaskBody.mk (Some "write") (Js.Str "5000") None
                                          Js.Undefined (Some "u2") (Some "Zed")))
               "t1").
  vm_compute. reflexivity.
Defined.

(* ===================================================================== *)
(** ** User DELETE and the two-way reference                               *)
(* ===================================================================== *)

(** X18.  DELETE /users/:id keeps pendingTasks exact for the users that
    remain, and after it no stored task names the deleted user. *)
Theorem delete_user_keeps_consistency (id : string) (s : Store) :
  consistent s ->
  consistent (handle (delete_user id) s).2
  /\ (is_Some (users s !! id) ->
      forall k t, tasks (handle (delete_user id) s).2 !! k = Some t ->
                  Task.assignedUser t <> id).
Proof.
  intros [Hempty Hcons].
  destruct (users s !! id) as [user|] eqn:Hu.
  2:{ rewrite (delete_user_missing _ _ Hu). simpl. split; [done|].
      by intros [? ?]. }
  assert (id <> "") as Hid by (intros ->; congruence).
  rewrite (delete_user_found _ _ _ Hu). simpl. split.
  - split; simpl.
    { rewrite lookup_delete_ne; done. }
    intros uid u Huid tid.
    rewrite lookup_delete in Huid. case_decide as Hd; [done|].
    assert (uid <> "") as Hne0 by (intros ->; congruence).
    rewrite (Hcons uid u Huid tid), map_lookup_imap.
    destruct (tasks s !! tid) as [t|] eqn:Ht; simpl.
    + case_bool_decide as Ha.
      * split.
        -- intros (t0 & [= <-] & H1 & _). congruence.
        -- intros (t0 & [= <-] & H1 & _). simpl in H1. congruence.
      * done.
    + done.
  - intros _ k t'. rewrite map_lookup_imap.
    destruct (tasks s !! k) as [t|]; [|done]. simpl.
    case_bool_decide as Ha; intros [= <-]; simpl; congruence.
Qed.

Lemma delete_user_keeps_consistency_witness :
  consistent (handle (delete_user "u1") Sample.store).2
  /\ (Task.assignedUser <$> tasks (handle (delete_user "u1") Sample.store).2 !! "t1")
     = Some "".
Proof.
  destruct (delete_user_keeps_consistency "u1" Sample.store sample_store_consistent)
    as [Hc _].
  split; [exact Hc | vm_compute; reflexivity].
Defined.

(* ===================================================================== *)
(** ** Sending a Task PUT again                                            *)
(* ===================================================================== *)

Lemma parseBoolean_again v d : parseBoolean v (parseBoolean v d) = parseBoolean v d.
Proof. by destruct v. Qed.

Lemma or_str_again o d : Js.or_str o (Js.or_str o d) = Js.or_str o d.
Proof. destruct o as [x|]; simpl; [|done]. by destruct (Js.str_truthy x). Qed.

Lemma pull_absent (x : string) (l : list string) : x ∉ l -> pull x l = l.
Proof.
  unfold pull. induction l as [|y l IH]; simpl; [done|].
  intros Hx. apply not_elem_of_cons in Hx as [Hxy Hl].
  rewrite bool_decide_eq_false_2 by congruence. simpl. by rewrite IH.
Qed.

Lemma addToSet_present (x : string) (l : list string) : x ∈ l -> addToSet x l = l.
Proof. intros Hx. unfold addToSet. by rewrite bool_decide_eq_true_2. Qed.

Lemma set_pendingTasks_same f u :
  f (User.pendingTasks u) = User.pendingTasks u -> Users.set_pendingTasks f u = u.
Proof. destruct u. unfold Users.set_pendingTasks. simpl. by intros ->. Qed.

(** X19.  On a store whose pendingTasks are exact, a PUT /tasks/:id that
    succeeded can be sent again: the second answer is the first, and the
    store does not change any more. *)
Theorem put_task_twice Dp id body s r s1 :
  consistent s ->
  handle (put_task Dp id body) s = (r, s1) ->
  status r = 200 ->
  handle (put_task Dp id body) s1 = (r, s1).
Proof.
  intros Hc Hrun Hok.
  assert (consistent s1) as Hc1.
  { pose proof (serve_task_consistent Dp (PutTask id body) s Hc) as H.
    simpl in H. by rewrite Hrun in H. }
  destruct (put_task_ok_inv _ _ _ _ _ _ Hrun Hok)
    as (old & dl & au & aun & Hold & Hn & Hd & Hdl & Hres & Hr & Hs).
  set (c := parseBoolean (TaskBody.completed body) (Task.completed old)) in *.
  set (task := Task.mk (Js.or_str (TaskBody.name body) "")
                 (Js.or_str (TaskBody.description body) (Task.description old))
                 dl c au aun) in *.
  assert (tasks s1 !! id = Some task) as Ht1
      by (rewrite Hs; simpl; apply lookup_insert_eq).
  assert (forall uid, User.name <$> users s1 !! uid = User.name <$> users s !! uid)
    as Hnames by (intros uid; rewrite Hs; apply names_after_add_remove).
  assert (Js.str_truthy (requested_assignee body task)
          = Js.str_truthy (requested_assignee body old)
          /\ (Js.str_truthy (requested_assignee body old) = true ->
              requested_assignee body task = au)) as [Htr Hreq].
  { unfold requested_assignee in *. simpl.
    destruct (TaskBody.assignedUser body) as [a|].
    - split; [done|]. intros Ht. destruct Hres as [(Hf & _) | (_ & -> & _)]; congruence.
    - destruct Hres as [(Hf & -> & _) | (Ht & -> & _)]; [|done].
      split; [by rewrite Hf | congruence]. }
  assert (status (handle (put_task Dp id body) s1).1 = 200) as Hok2.
  { apply (put_task_ok Dp id body s1 task dl); try done.
    rewrite Htr. intros Ht. rewrite (Hreq Ht).
    destruct Hres as [(Hf & _) | (_ & _ & u & Hu & _)]; [congruence|].
    specialize (Hnames au). rewrite Hu in Hnames.
    destruct (users s1 !! au); [eauto | done]. }
  destruct (handle (put_task Dp id body) s1) as [r2 s2] eqn:Hrun2. simpl in Hok2.
  destruct (put_task_ok_inv _ _ _ _ _ _ Hrun2 Hok2)
    as (old2 & dl2 & au2 & aun2 & Hold2 & _ & _ & Hdl2 & Hres2 & Hr2 & Hs2).
  rewrite Ht1 in Hold2. injection Hold2 as <-.
  rewrite Hdl in Hdl2. injection Hdl2 as <-.
  assert (au2 = au /\ aun2 = aun) as [-> ->].
  { rewrite Htr in Hres2.
    destruct Hres as [(Hf & -> & ->) | (Ht & Hau & u & Hu & ->)].
    - destruct Hres2 as [(_ & -> & ->) | (Ht2 & _)]; [done | congruence].
    - destruct Hres2 as [(Hf2 & _) | (_ & -> & u2 & Hu2 & ->)]; [congruence|].
      rewrite (Hreq Ht) in *. split; [done|].
      specialize (Hnames au). rewrite Hu, Hu2 in Hnames. simpl in Hnames. congruence. }
  unfold task in Hr2, Hs2. simpl in Hr2, Hs2. fold c in Hr2, Hs2.
  assert (parseBoolean (TaskBody.completed body) c = c) as Hpb
      by apply parseBoolean_again.
  rewrite Hpb, or_str_again in Hr2, Hs2. fold task in Hr2, Hs2.
  f_equal; [congruence|].
  rewrite Hs2. destruct s1 as [U1 T1]. simpl in *. f_equal.
  - apply map_eq. intros uid.
    rewrite lookup_add_users, lookup_remove_users.
    destruct (U1 !! uid) as [u1|] eqn:Hu1; [|done]. simpl. f_equal.
    destruct Hc1 as [Hempty1 Hcons1]. simpl in *.
    pose proof (Hcons1 uid u1 Hu1 id) as Hin. rewrite Ht1 in Hin.
    destruct (bool_decide (uid = au)) eqn:Hua; simpl; [|done].
    apply bool_decide_eq_true in Hua. subst uid.
    assert (au <> "") as Hne by (intros ->; congruence).
    apply str_truthy_iff in Hne. rewrite Hne. unfold shouldRemove.
    rewrite bool_decide_eq_true_2 by done. rewrite Hne. simpl.
    rewrite orb_false_r, orb_diag.
    destruct c eqn:Hcc; simpl.
    + apply set_pendingTasks_same, pull_absent.
      intros Hi. apply Hin in Hi as (t & [= <-] & _ & Hopen). simpl in Hopen.
      congruence.
    + apply set_pendingTasks_same, addToSet_present.
      apply Hin. exists task. by split.
  - assert (T1 = <[id := task]> (tasks s)) as -> by (by injection Hs).
    apply insert_insert_eq.
Qed.

Lemma put_task_twice_witness :
  let body := TaskBody.mk (Some "write") (Js.Str "5000") (Some "draft")
                          (Js.Bool false) (Some "u2") None in
  let out := handle (put_task Sample.Date_parse "t1" body) Sample.store in
  status out.1 = 200
  /\ handle (put_task Sample.Date_parse "t1" body) out.2 = out.
Proof.
  intros body out. split; [reflexivity|].
  rewrite (surjective_pairing out) at 2.
  apply (put_task_twice Sample.Date_parse "t1" body Sample.store
           out.1 out.2 sample_store_consistent (surjective_pairing _) eq_refl).
Defined.

(* ===================================================================== *)
(** ** User PUT with the same pendingTasks; projections on the item routes *)
(* ===================================================================== *)

(** X20.  A successful PUT /users/:id whose pendingTasks has the same members
    as the stored list writes no task at all (so a change of name or
    email reaches the user record only), and keeps pendingTasks exact
    if it was. *)
Theorem put_user_same_pending_writes_no_task Dp id body s r s' old :
  handle (put_user Dp id body) s = (r, s') ->
  status r = 200 ->
  users s !! id = Some old ->
  (forall k, k ∈ normalize_pending (UserBody.pendingTasks body)
             <-> k ∈ User.pendingTasks old) ->
  tasks s' = tasks s /\ (consistent s -> consistent s').
Proof.
  intros Hrun Hok Hold Hsame.
  destruct (put_user_ok_inv _ _ _ _ _ _ Hrun Hok)
    as (user & n & e & dc & Hu & _ & _ & _ & _ & _ & _ & _ & ->).
  rewrite Hold in Hu. injection Hu as <-. simpl.
  assert (put_user_tasks id n (User.pendingTasks old)
            (normalize_pending (UserBody.pendingTasks body)) (tasks s) = tasks s)
    as Htasks.
  { apply map_eq. intros k. rewrite put_user_tasks_lookup.
    destruct (tasks s !! k) as [t|]; [|done]. simpl. unfold reconciled.
    rewrite !bool_decide_eq_false_2; [done | |]; rewrite Hsame; tauto. }
  rewrite Htasks. split; [done|].
  intros [Hempty Hcons]. split; simpl.
  - rewrite lookup_insert_ne; [done|]. intros Hid. rewrite Hid in Hold. congruence.
  - intros uid u. rewrite lookup_insert. case_decide as Hd.
    + intros [= <-] tid. simpl. subst uid. rewrite Hsame. by apply Hcons.
    + intros Hu tid. by apply Hcons.
Qed.

Lemma put_user_same_pending_writes_no_task_witness :
  tasks (handle (put_user Sample.Date_parse "u1"
                   (UserBody.mk (Some "Anna") (Some "anna@x.org") (PScalar "t1")
                                Js.Undefined)) Sample.store).2
  = tasks Sample.store.
Proof.
  apply (put_user_same_pending_writes_no_task Sample.Date_parse "u1"
           (UserBody.mk (Some "Anna") (Some "anna@x.org") (PScalar "t1") Js.Undefined)
           Sample.store _ _ Sample.ann (surjective_pairing _) eq_refl eq_refl).
  intros k. reflexivity.
Defined.

(** X21.  On GET /users/:id and GET /tasks/:id a select/filter pair of which
    at least one is given and neither yields a truthy value is refused
    with 400 before the document is looked up, so also for an id that
    does not exist. *)
Theorem item_routes_refuse_bad_select Jp UQ TQ (id : string) (q : Query) (s : Store) :
  Js.opt_truthy (q_select q) || Js.opt_truthy (q_filter q) = true ->
  json_truthy (select_of Jp q) = false ->
  handle (get_user Jp UQ id q) s
  = (mkResponse 400 "Bad Request: invalid JSON in 'select/filter'" DObject, s)
  /\ handle (get_task Jp TQ id q) s
     = (mkResponse 400 "Bad Request: invalid JSON in 'select/filter'" DObject, s).
Proof.
  intros Hf Hbad. unfold select_of in Hbad.
  unfold get_user, get_task. run_handler. by rewrite Hf, Hbad.
Qed.

Lemma item_routes_refuse_bad_select_witness :
  handle (get_task Sample.JSON_parse (Sample.engine _) "nothing"
            (mkQuery None None (Some "name") None None None None)) Sample.store
  = (mkResponse 400 "Bad Request: invalid JSON in 'select/filter'" DObject, Sample.store).
Proof.
  apply (item_routes_refuse_bad_select Sample.JSON_parse (Sample.engine _)
           (Sample.engine _) "nothing"
           (mkQuery None None (Some "name") None None None None) Sample.store
           eq_refl eq_refl).
Defined.
